(** * Attendance back end: controllers over the relational store

    A shallow embedding of the Express controllers of the attendance
    back end (batch, division, session and attendance controllers)
    together with the part of the object-relational layer they call.

    - Tables are lists of rows, in storage order; ids are integers.
    - A handler is a computation over the store that either goes on or
      has sent its response; [throw] is the [catch (error) { next(error) }]
      path of every handler.
    - Each controller file has its own top-level bindings (the names its
      [require] lines introduce).  A handler evaluates an identifier
      through [ident], which raises a ReferenceError for a name the file
      never binds.  Handlers take the bindings as their first argument;
      the bindings of each file are its [imports].
    - Model validation (models/*.js) runs before an insert or an update
      made through an instance: [allowNull: false] columns, [isDate],
      [notEmpty], [min] and [max].
    - Failures of the database engine itself are not modelled: a write
      that passes validation succeeds.  Foreign-key actions (the
      ON DELETE CASCADE of the sessions migration) are carried out by the
      engine and are not modelled either.
    - Numbers are exact: counts are integers and rates are rationals.
    - DATEONLY values are the strings YYYY-MM-DD, ordered as strings. *)

From Stdlib Require Import List ZArith Ascii String Bool Lia QArith Qround Qabs Lqa.
Import ListNotations.

Local Open Scope string_scope.
Local Open Scope Z_scope.

(** ** JavaScript values as the handlers test them *)

(** [if (x)] on an optional JSON number: undefined, null and 0 are falsy. *)
Definition truthy_num (v : option Z) : bool :=
  match v with
  | Some n => negb (n =? 0)
  | None => false
  end.

(** [if (x)] on an optional string: undefined, null and the empty string
    are falsy. *)
Definition truthy_str (v : option string) : bool :=
  match v with
  | Some s => negb (String.eqb s "")
  | None => false
  end.

(** [x || y] on numbers and on strings. *)
Definition num_or (v : option Z) (dflt : Z) : Z :=
  match v with
  | Some n => if n =? 0 then dflt else n
  | None => dflt
  end.

Definition str_or (v : option string) (dflt : string) : string :=
  match v with
  | Some s => if String.eqb s "" then dflt else s
  | None => dflt
  end.

(** [x !== undefined ? x : y]. *)
Definition defined_or {A : Type} (v : option A) (dflt : A) : A :=
  match v with
  | Some a => a
  | None => dflt
  end.

(** [list.includes(x)] on numbers (strict equality). *)
Definition includes (l : list Z) (x : Z) : bool := existsb (Z.eqb x) l.

(** ** Rows of the tables (models/*.js) *)

Inductive Role : Type := admin | staff | santri.

Definition Role_eqb (a b : Role) : bool :=
  match a, b with
  | admin, admin | staff, staff | santri, santri => true
  | _, _ => false
  end.

(** ENUM('present', 'late', 'absent', 'excused') *)
Inductive AttStatus : Type := present | late | absent | excused.

Definition AttStatus_eqb (a b : AttStatus) : bool :=
  match a, b with
  | present, present | late, late | absent, absent | excused, excused => true
  | _, _ => false
  end.

(** ENUM('scheduled', 'in-progress', 'completed', 'cancelled') *)
Inductive SessionStatus : Type := scheduled | in_progress | completed | cancelled.

Record User : Type := mkUser {
  user_id : Z;
  user_name : string;
  user_role : Role;
  user_batchId : option Z;
  user_divisionId : option Z
}.

Record Batch : Type := mkBatch {
  batch_id : Z;
  batch_name : string;
  batch_year : Z;
  batch_isActive : bool
}.

Record Division : Type := mkDivision {
  division_id : Z;
  division_name : string;
  division_description : option string;
  division_isActive : bool
}.

Record SessionType : Type := mkSessionType {
  sessionType_id : Z;
  sessionType_name : string
}.

(** models/session.js: every column below is [allowNull: false]. *)
Record Session : Type := mkSession {
  session_id : Z;
  session_date : string;
  session_startTime : string;
  session_endTime : string;
  session_sessionTypeId : Z;
  session_batchId : Z;
  session_divisionId : Z;
  session_status : SessionStatus
}.

(** models/attendance.js: sessionId and userId are [allowNull: false],
    the other columns are nullable. *)
Record Attendance : Type := mkAttendance {
  att_id : Z;
  att_sessionId : Z;
  att_userId : Z;
  att_status : AttStatus;
  att_checkInTime : option Z;
  att_notes : option string;
  att_verifiedBy : option Z;
  att_verifiedAt : option Z
}.

Record DB : Type := mkDB {
  Users : list User;
  Batches : list Batch;
  Divisions : list Division;
  SessionTypes : list SessionType;
  Sessions : list Session;
  Attendances : list Attendance
}.

Definition with_Batches (d : DB) (l : list Batch) : DB :=
  mkDB (Users d) l (Divisions d) (SessionTypes d) (Sessions d) (Attendances d).

Definition with_Divisions (d : DB) (l : list Division) : DB :=
  mkDB (Users d) (Batches d) l (SessionTypes d) (Sessions d) (Attendances d).

Definition with_Sessions (d : DB) (l : list Session) : DB :=
  mkDB (Users d) (Batches d) (Divisions d) (SessionTypes d) l (Attendances d).

Definition with_Attendances (d : DB) (l : list Attendance) : DB :=
  mkDB (Users d) (Batches d) (Divisions d) (SessionTypes d) (Sessions d) l.

(** ** Responses *)

Inductive js_error : Type :=
| ReferenceError (name : string)      (* "<name> is not defined" *)
| TypeError (what : string)           (* property read on undefined *)
| SequelizeValidationError (what : string).

Inductive message : Type :=
| BatchNotFound (id : Z)
| DivisionNotFound (id : Z)
| SessionNotFound (id : Z)
| SessionTypeNotFound (id : option Z)
| BatchIdNotFound (id : option Z)
| BatchAlreadyExists
| SessionAlreadyExists
| DateFormat
| SessionStatusOneOf
| StatusOneOf
| CannotDeleteBatch (userCount : Z)
| CannotDeleteDivision (userCount : Z)
| AttendanceDataNonEmpty
| ItemNeedsIdAndStatus
| UserIdsNonEmpty
| AllSpecifiedHaveRecords
| AllInBatchHaveRecords
| SessionWithoutBatch
| NoUsersInBatch (batchName : string)
| CreatedForBatch (count : Z) (batchName : string)
| UpdatedAndCreated (updated created : Z)
| NoSessionsFound.

Record StatusCounts : Type := mkCounts {
  n_present : Z;
  n_absent : Z;
  n_late : Z;
  n_excused : Z
}.

Record StatsData : Type := mkStats {
  totalSessions : Z;
  totalAttendanceRecords : Z;
  statusCounts : StatusCounts;
  attendanceRate : Q
}.

(** One entry of [byBatch], [byDivision] or [bySessionType]. *)
Record Group : Type := mkGroup {
  g_key : Z;
  g_name : string;
  g_totalRecords : Z;
  g_counts : StatusCounts;
  g_attendanceRate : Q
}.

Record Statistics : Type := mkStatistics {
  st_totalSessions : Z;
  st_totalUsers : Z;
  st_totalRecords : Z;
  st_byStatus : StatusCounts;
  st_byBatch : list Group;
  st_byDivision : list Group;
  st_bySessionType : list Group;
  st_attendanceRate : Q
}.

(** One element of the [sessions] array of a report. *)
Record SessionSummary : Type := mkSummary {
  sum_id : Z;
  sum_date : string;
  sum_batchName : option string;
  sum_sessionTypeName : option string
}.

Inductive payload : Type :=
| Message (m : message)
| EmptyData
| BatchData (b : Batch)
| SessionData (s : option Session)
| AttendanceRows (count : Z) (rows : list Attendance)
| Stats (s : StatsData)
| Counts (updated created total : Z) (m : message)
| Report (m : option message) (sessions : list SessionSummary)
         (statistics : option Statistics).  (* [None] is the empty object *)

Inductive response : Type :=
| Json (code : Z) (success : bool) (p : payload)  (* res.status(code).json(..) *)
| NextError (e : js_error).                       (* next(error) *)

Definition is_success (r : response) : bool :=
  match r with
  | Json _ ok _ => ok
  | NextError _ => false
  end.

(** ** Handlers: store passing with early exit *)

Inductive outcome (A : Type) : Type :=
| Next (a : A) (d : DB)
| Sent (r : response) (d : DB).

Arguments Next {A} a d.
Arguments Sent {A} r d.

Definition handler (A : Type) : Type := DB -> outcome A.

Definition ret {A : Type} (a : A) : handler A := fun d => Next a d.

Definition bind {A B : Type} (m : handler A) (k : A -> handler B) : handler B :=
  fun d =>
    match m d with
    | Next a d' => k a d'
    | Sent r d' => Sent r d'
    end.

(** [return res.status(..).json(..)] *)
Definition send {A : Type} (r : response) : handler A := fun d => Sent r d.

(** An exception inside [try]: the [catch] clause calls [next(error)]. *)
Definition throw {A : Type} (e : js_error) : handler A := send (NextError e).

Definition query {A : Type} (f : DB -> A) : handler A := fun d => Next (f d) d.

Definition exec (f : DB -> DB) : handler unit := fun d => Next tt (f d).

Declare Scope handler_scope.
Delimit Scope handler_scope with handler.

Notation "x <- m ;; k" := (bind m (fun x => k))
  (at level 100, m at next level, right associativity) : handler_scope.
Notation "m ;; k" := (bind m (fun _ => k))
  (at level 100, right associativity) : handler_scope.

Local Open Scope handler_scope.

(** A handler body always ends by sending a response. *)
Definition run (h : handler Empty_set) (d : DB) : response * DB :=
  match h d with
  | Next a _ => match a with end
  | Sent r d' => (r, d')
  end.

(** [if (c) return res...] *)
Definition reject_if (c : bool) (r : response) : handler unit :=
  if c then send r else ret tt.

(** ** Top-level bindings of a controller file *)

Definition bound (scope : list string) (x : string) : bool :=
  existsb (String.eqb x) scope.

(** Evaluation of the identifier [x]. *)
Definition ident (scope : list string) (x : string) : handler unit :=
  if bound scope x then ret tt else throw (ReferenceError x).

(** ** The object-relational layer *)

(** AUTOINCREMENT primary key: above every id in the table. *)
Definition fresh_id (ids : list Z) : Z := fold_right Z.max 0 ids + 1.

Module BatchModel.

Definition findByPk (id : Z) (d : DB) : option Batch :=
  find (fun b => batch_id b =? id) (Batches d).

Definition findOne (where_ : Batch -> bool) (d : DB) : option Batch :=
  find where_ (Batches d).

(** unnamed/part_001: name notEmpty, year between 2000 and 2100. *)
Definition valid (b : Batch) : bool :=
  negb (String.eqb (batch_name b) "") && (2000 <=? batch_year b) && (batch_year b <=? 2100).

(** [batch.update(values)]: validates, then UPDATE .. WHERE id = batch.id *)
Definition update (b : Batch) (name : string) (year : Z) (isActive : bool) : handler Batch :=
  let b' := mkBatch (batch_id b) name year isActive in
  if valid b' then
    exec (fun d => with_Batches d
            (map (fun x => if batch_id x =? batch_id b then b' else x) (Batches d))) ;;
    ret b'
  else throw (SequelizeValidationError "Batch").

(** [batch.destroy()]: DELETE .. WHERE id = batch.id *)
Definition destroy (b : Batch) : handler unit :=
  exec (fun d => with_Batches d
          (filter (fun x => negb (batch_id x =? batch_id b)) (Batches d))).

End BatchModel.

Module DivisionModel.

Definition findByPk (id : Z) (d : DB) : option Division :=
  find (fun x => division_id x =? id) (Divisions d).

Definition destroy (x : Division) : handler unit :=
  exec (fun d => with_Divisions d
          (filter (fun y => negb (division_id y =? division_id x)) (Divisions d))).

End DivisionModel.

Module UserModel.

Definition findAll (where_ : User -> bool) (d : DB) : list User :=
  filter where_ (Users d).

Definition count (where_ : User -> bool) (d : DB) : Z :=
  Z.of_nat (List.length (filter where_ (Users d))).

Definition in_batch (batchId : Z) (u : User) : bool :=
  match user_batchId u with
  | Some b => b =? batchId
  | None => false
  end.

Definition in_division (divisionId : Z) (u : User) : bool :=
  match user_divisionId u with
  | Some x => x =? divisionId
  | None => false
  end.

Definition is_santri (u : User) : bool := Role_eqb (user_role u) santri.

End UserModel.

(** ** controllers/batch.controller.js *)

Module BatchController.

(** const { Batch, User } = require('../models'); *)
Definition imports : list string := ["Batch"; "User"].

Record Body : Type := mkBody {
  name : option string;
  year : option Z;
  isActive : option bool
}.

(** PUT /api/batches/:id.  The object literal passed to [findOne] has
    two [where] keys; the second one wins. *)
Definition updateBatch (scope : list string) (id : Z) (body : Body)
  : handler Empty_set :=
  ident scope "Batch" ;;
  found <- query (BatchModel.findByPk id) ;;
  match found with
  | None => send (Json 404 false (Message (BatchNotFound id)))
  | Some batch =>
      (if truthy_str (name body) && truthy_num (year body) then
         ident scope "Batch" ;;
         ident scope "Op" ;;
         duplicateBatch <- query (BatchModel.findOne (fun x =>
           negb (batch_id x =? id)
           && String.eqb (batch_name x) (defined_or (name body) "")
           && (batch_year x =? defined_or (year body) 0))) ;;
         match duplicateBatch with
         | Some _ => send (Json 400 false (Message BatchAlreadyExists))
         | None => ret tt
         end
       else ret tt) ;;
      batch' <- BatchModel.update batch
                  (str_or (name body) (batch_name batch))
                  (num_or (year body) (batch_year batch))
                  (defined_or (isActive body) (batch_isActive batch)) ;;
      send (Json 200 true (BatchData batch'))
  end.

(** DELETE /api/batches/:id *)
Definition deleteBatch (scope : list string) (id : Z) : handler Empty_set :=
  ident scope "Batch" ;;
  found <- query (BatchModel.findByPk id) ;;
  match found with
  | None => send (Json 404 false (Message (BatchNotFound id)))
  | Some batch =>
      ident scope "User" ;;
      userCount <- query (UserModel.count (UserModel.in_batch id)) ;;
      reject_if (0 <? userCount)
        (Json 400 false (Message (CannotDeleteBatch userCount))) ;;
      BatchModel.destroy batch ;;
      send (Json 200 true EmptyData)
  end.

End BatchController.

(** ** controllers/division.controller.js (unnamed/part_002) *)

Module DivisionController.

(** const { Division, User } = require('../models');
    const { Op } = require('sequelize'); *)
Definition imports : list string := ["Division"; "User"; "Op"].

(** DELETE /api/divisions/:id *)
Definition deleteDivision (scope : list string) (id : Z) : handler Empty_set :=
  ident scope "Division" ;;
  found <- query (DivisionModel.findByPk id) ;;
  match found with
  | None => send (Json 404 false (Message (DivisionNotFound id)))
  | Some division =>
      ident scope "User" ;;
      userCount <- query (UserModel.count (UserModel.in_division id)) ;;
      reject_if (0 <? userCount)
        (Json 400 false (Message (CannotDeleteDivision userCount))) ;;
      DivisionModel.destroy division ;;
      send (Json 200 true EmptyData)
  end.

End DivisionController.

(** ** Dates *)

Definition is_digit (c : ascii) : bool :=
  let n := nat_of_ascii c in ((48 <=? n) && (n <=? 57))%nat.

Definition is_dash (c : ascii) : bool := Ascii.eqb c "-"%char.

(** /^\d{4}-\d{2}-\d{2}$/.test(s) *)
Definition dateRegex_test (s : string) : bool :=
  match list_ascii_of_string s with
  | [y1; y2; y3; y4; h1; m1; m2; h2; d1; d2] =>
      is_digit y1 && is_digit y2 && is_digit y3 && is_digit y4 && is_dash h1
      && is_digit m1 && is_digit m2 && is_dash h2 && is_digit d1 && is_digit d2
  | _ => false
  end.

Definition digit_val (c : ascii) : nat := nat_of_ascii c - 48.

(** The [isDate] validator of models/session.js on a DATEONLY value: the
    string has to parse as a date, which for the YYYY-MM-DD shape means a
    month from 01 to 12 and a day from 01 to 31. *)
Definition isDate (s : string) : bool :=
  match list_ascii_of_string s with
  | [_; _; _; _; _; m1; m2; _; d1; d2] =>
      let m := (10 * digit_val m1 + digit_val m2)%nat in
      let dd := (10 * digit_val d1 + digit_val d2)%nat in
      (dateRegex_test s && (1 <=? m) && (m <=? 12) && (1 <=? dd) && (dd <=? 31))%nat
  | _ => false
  end.

(** Order of DATEONLY values written YYYY-MM-DD: the order of the strings. *)
Definition date_leb (a b : string) : bool := String.leb a b.

(** ** Session, session type and attendance models *)

Module SessionTypeModel.

Definition findByPk (id : option Z) (d : DB) : option SessionType :=
  match id with
  | Some i => find (fun x => sessionType_id x =? i) (SessionTypes d)
  | None => None
  end.

End SessionTypeModel.

Module SessionModel.

Definition findByPk (id : Z) (d : DB) : option Session :=
  find (fun s => session_id s =? id) (Sessions d).

Definition findOne (where_ : Session -> bool) (d : DB) : option Session :=
  find where_ (Sessions d).

Definition findAll (where_ : Session -> bool) (d : DB) : list Session :=
  filter where_ (Sessions d).

(** The values handed to [Session.create]; [None] is a key the caller
    leaves out. *)
Record Values : Type := mkValues {
  v_date : option string;
  v_startTime : option string;
  v_endTime : option string;
  v_sessionTypeId : option Z;
  v_batchId : option Z;
  v_divisionId : option Z;
  v_status : option SessionStatus
}.

(** Model validation before INSERT: date, startTime, endTime,
    sessionTypeId, batchId and divisionId are [allowNull: false], date
    is validated with [isDate], status defaults to 'scheduled'. *)
Definition build (id : Z) (v : Values) : option Session :=
  match v_date v, v_startTime v, v_endTime v,
        v_sessionTypeId v, v_batchId v, v_divisionId v with
  | Some date, Some startTime, Some endTime,
    Some sessionTypeId, Some batchId, Some divisionId =>
      if isDate date then
        Some (mkSession id date startTime endTime sessionTypeId batchId divisionId
                (defined_or (v_status v) scheduled))
      else None
  | _, _, _, _, _, _ => None
  end.

Definition create (v : Values) : handler Session :=
  next_id <- query (fun d => fresh_id (map session_id (Sessions d))) ;;
  match build next_id v with
  | Some s => exec (fun d => with_Sessions d (Sessions d ++ [s])) ;; ret s
  | None => throw (SequelizeValidationError "Session")
  end.

(** [session.update({date, sessionTypeId, batchId, notes, status})]:
    validates the given fields, then UPDATE .. WHERE id = session.id;
    resolves to the instance carrying the new values.  [notes] is not a
    column of the model and is not written. *)
Definition update (s : Session) (date : string) (sessionTypeId batchId : Z)
    (status : SessionStatus) : handler Session :=
  let s' := mkSession (session_id s) date (session_startTime s) (session_endTime s)
              sessionTypeId batchId (session_divisionId s) status in
  if isDate date then
    exec (fun d => with_Sessions d
            (map (fun x => if session_id x =? session_id s then s' else x) (Sessions d))) ;;
    ret s'
  else throw (SequelizeValidationError "Session").

End SessionModel.

Module AttendanceModel.

Definition findAll (where_ : Attendance -> bool) (d : DB) : list Attendance :=
  filter where_ (Attendances d).

Definition findOne (where_ : Attendance -> bool) (d : DB) : option Attendance :=
  find where_ (Attendances d).

Definition count (where_ : Attendance -> bool) (d : DB) : Z :=
  Z.of_nat (List.length (filter where_ (Attendances d))).

(** One element of the array handed to [Attendance.bulkCreate]. *)
Record Values : Type := mkValues {
  v_sessionId : Z;
  v_userId : Z;
  v_status : AttStatus;
  v_notes : option string;
  v_verifiedBy : option Z;
  v_verifiedAt : option Z
}.

Fixpoint assign_ids (next_id : Z) (l : list Values) : list Attendance :=
  match l with
  | [] => []
  | v :: l' =>
      mkAttendance next_id (v_sessionId v) (v_userId v) (v_status v) None
        (v_notes v) (v_verifiedBy v) (v_verifiedAt v)
      :: assign_ids (next_id + 1) l'
  end.

(** [Attendance.bulkCreate(records)]: one INSERT per element, in order. *)
Definition bulkCreate (l : list Values) : handler (list Attendance) :=
  next_id <- query (fun d => fresh_id (map att_id (Attendances d))) ;;
  let rows := assign_ids next_id l in
  exec (fun d => with_Attendances d (Attendances d ++ rows)) ;;
  ret rows.

(** [Attendance.destroy({ where })] *)
Definition destroy (where_ : Attendance -> bool) : handler unit :=
  exec (fun d => with_Attendances d
          (filter (fun a => negb (where_ a)) (Attendances d))).

(** [record.update({status, notes, verifiedBy, verifiedAt})] and
    [record.save()] after the same four assignments:
    UPDATE .. WHERE id = record.id *)
Definition update (a : Attendance) (status : AttStatus) (notes : option string)
    (verifiedBy verifiedAt : option Z) : handler Attendance :=
  let a' := mkAttendance (att_id a) (att_sessionId a) (att_userId a) status
              (att_checkInTime a) notes verifiedBy verifiedAt in
  exec (fun d => with_Attendances d
          (map (fun x => if att_id x =? att_id a then a' else x) (Attendances d))) ;;
  ret a'.

End AttendanceModel.

(** The rows created for the santri users of a batch when a session is
    created or moved: status 'absent', no verifier. *)
Definition defaultRecords (sessionId : Z) (users : list User)
  : list AttendanceModel.Values :=
  map (fun user => AttendanceModel.mkValues sessionId (user_id user) absent None None None)
      users.

(** ** controllers/session.controller.js *)

Module SessionController.

(** const { Session, SessionType, Attendance, User, Batch } = require('../models');
    const { Op } = require('sequelize'); *)
Definition imports : list string :=
  ["Session"; "SessionType"; "Attendance"; "User"; "Batch"; "Op"].

Record Body : Type := mkBody {
  date : option string;
  sessionTypeId : option Z;
  batchId : option Z;
  notes : option string;
  status : option string
}.

(** validStatuses.includes(status), with the value it denotes *)
Definition parse_status (s : string) : option SessionStatus :=
  if String.eqb s "scheduled" then Some scheduled
  else if String.eqb s "in-progress" then Some in_progress
  else if String.eqb s "completed" then Some completed
  else if String.eqb s "cancelled" then Some cancelled
  else None.

Definition batch_findByPk (id : option Z) (d : DB) : option Batch :=
  match id with
  | Some i => BatchModel.findByPk i d
  | None => None
  end.

Definition santri_of_batch (batchId : Z) (u : User) : bool :=
  UserModel.in_batch batchId u && UserModel.is_santri u.

(** POST /api/sessions *)
Definition createSession (scope : list string) (body : Body) : handler Empty_set :=
  reject_if (negb (match date body with
                   | Some s => dateRegex_test s
                   | None => false
                   end))
    (Json 400 false (Message DateFormat)) ;;
  ident scope "SessionType" ;;
  sessionType <- query (SessionTypeModel.findByPk (sessionTypeId body)) ;;
  reject_if (match sessionType with Some _ => false | None => true end)
    (Json 404 false (Message (SessionTypeNotFound (sessionTypeId body)))) ;;
  ident scope "Batch" ;;
  batch <- query (batch_findByPk (batchId body)) ;;
  reject_if (match batch with Some _ => false | None => true end)
    (Json 404 false (Message (BatchIdNotFound (batchId body)))) ;;
  ident scope "Session" ;;
  existingSession <- query (SessionModel.findOne (fun s =>
    String.eqb (session_date s) (defined_or (date body) "")
    && (session_sessionTypeId s =? defined_or (sessionTypeId body) 0)
    && (session_batchId s =? defined_or (batchId body) 0))) ;;
  reject_if (match existingSession with Some _ => true | None => false end)
    (Json 400 false (Message SessionAlreadyExists)) ;;
  ident scope "Session" ;;
  session <- SessionModel.create
               (SessionModel.mkValues (date body) None None
                  (sessionTypeId body) (batchId body) None (Some scheduled)) ;;
  ident scope "User" ;;
  users <- query (UserModel.findAll
                    (santri_of_batch (defined_or (batchId body) 0))) ;;
  (if (0 <? Z.of_nat (List.length users)) then
     ident scope "Attendance" ;;
     _ <- AttendanceModel.bulkCreate (defaultRecords (session_id session) users) ;;
     ret tt
   else ret tt) ;;
  ident scope "Session" ;;
  ident scope "SessionType" ;;
  ident scope "Batch" ;;
  createdSession <- query (SessionModel.findByPk (session_id session)) ;;
  send (Json 201 true (SessionData createdSession)).

(** PUT /api/sessions/:id *)
Definition updateSession (scope : list string) (id : Z) (body : Body)
  : handler Empty_set :=
  ident scope "Session" ;;
  found <- query (SessionModel.findByPk id) ;;
  match found with
  | None => send (Json 404 false (Message (SessionNotFound id)))
  | Some session =>
      reject_if (truthy_str (date body)
                 && negb (dateRegex_test (defined_or (date body) "")))
        (Json 400 false (Message DateFormat)) ;;
      (if truthy_num (sessionTypeId body) then
         ident scope "SessionType" ;;
         sessionType <- query (SessionTypeModel.findByPk (sessionTypeId body)) ;;
         reject_if (match sessionType with Some _ => false | None => true end)
           (Json 404 false (Message (SessionTypeNotFound (sessionTypeId body))))
       else ret tt) ;;
      (if truthy_num (batchId body) then
         ident scope "Batch" ;;
         batch <- query (batch_findByPk (batchId body)) ;;
         reject_if (match batch with Some _ => false | None => true end)
           (Json 404 false (Message (BatchIdNotFound (batchId body))))
       else ret tt) ;;
      (if truthy_str (date body) || truthy_num (sessionTypeId body)
          || truthy_num (batchId body) then
         let newDate := str_or (date body) (session_date session) in
         let newSessionTypeId :=
           num_or (sessionTypeId body) (session_sessionTypeId session) in
         let newBatchId := num_or (batchId body) (session_batchId session) in
         ident scope "Session" ;;
         ident scope "Op" ;;
         existingSession <- query (SessionModel.findOne (fun s =>
           negb (session_id s =? id)
           && String.eqb (session_date s) newDate
           && (session_sessionTypeId s =? newSessionTypeId)
           && (session_batchId s =? newBatchId))) ;;
         reject_if (match existingSession with Some _ => true | None => false end)
           (Json 400 false (Message SessionAlreadyExists))
       else ret tt) ;;
      reject_if (truthy_str (status body)
                 && match parse_status (defined_or (status body) "") with
                    | Some _ => false
                    | None => true
                    end)
        (Json 400 false (Message SessionStatusOneOf)) ;;
      (* session = await session.update({...}) *)
      session <- SessionModel.update session
                   (str_or (date body) (session_date session))
                   (num_or (sessionTypeId body) (session_sessionTypeId session))
                   (num_or (batchId body) (session_batchId session))
                   (if truthy_str (status body) then
                      defined_or (parse_status (defined_or (status body) ""))
                        (session_status session)
                    else session_status session) ;;
      (* if (batchId && batchId !== session.batchId) *)
      (if truthy_num (batchId body)
          && negb (defined_or (batchId body) 0 =? session_batchId session) then
         ident scope "Attendance" ;;
         AttendanceModel.destroy (fun a => att_sessionId a =? session_id session) ;;
         ident scope "User" ;;
         users <- query (UserModel.findAll
                           (santri_of_batch (defined_or (batchId body) 0))) ;;
         (if (0 <? Z.of_nat (List.length users)) then
            ident scope "Attendance" ;;
            _ <- AttendanceModel.bulkCreate
                   (defaultRecords (session_id session) users) ;;
            ret tt
          else ret tt)
       else ret tt) ;;
      ident scope "Session" ;;
      ident scope "SessionType" ;;
      ident scope "Batch" ;;
      updatedSession <- query (SessionModel.findByPk (session_id session)) ;;
      send (Json 200 true (SessionData updatedSession))
  end.

End SessionController.

(** ** Rates *)

(** [total > 0 ? (hits / total) * 100 : 0] *)
Definition rate_of (hits total : Z) : Q :=
  if 0 <? total then ((inject_Z hits / inject_Z total) * inject_Z 100)%Q else 0%Q.

(** [parseFloat(x.toFixed(2))] for x >= 0: the nearest multiple of 1/100,
    the larger one when two are equally near. *)
Definition toFixed2 (x : Q) : Q :=
  (inject_Z (Qfloor (x * inject_Z 100 + (1 # 2))) / inject_Z 100)%Q.

(** ** Ordering of query results *)

Section Sorting.

Variable A : Type.
Variable leb : A -> A -> bool.

Fixpoint insert_sorted (x : A) (l : list A) : list A :=
  match l with
  | [] => [x]
  | y :: l' => if leb x y then x :: l else y :: insert_sorted x l'
  end.

(** ORDER BY, as an insertion sort *)
Definition order_by (l : list A) : list A := fold_right insert_sorted [] l.

End Sorting.

Arguments order_by {A} leb l.

(** ** controllers/attendance.controller.js *)

Module AttendanceController.

(** const { Attendance, Session, User, SessionType, Batch } = require('../models');
    const { Op } = require('sequelize'); *)
Definition imports : list string :=
  ["Attendance"; "Session"; "User"; "SessionType"; "Batch"; "Op"].

(** validStatuses.includes(status), with the value it denotes *)
Definition parse_status (s : string) : option AttStatus :=
  if String.eqb s "present" then Some present
  else if String.eqb s "absent" then Some absent
  else if String.eqb s "late" then Some late
  else if String.eqb s "excused" then Some excused
  else None.

Definition valid_status (s : option string) : bool :=
  match s with
  | Some x => match parse_status x with Some _ => true | None => false end
  | None => false
  end.

Definition status_value (s : option string) (dflt : AttStatus) : AttStatus :=
  match s with
  | Some x => defined_or (parse_status x) dflt
  | None => dflt
  end.

(** *** bulkUpdateAttendance *)

(** One element of [attendanceData]; for [notes], [None] is a missing
    key and [Some v] the value given (null or a text). *)
Record Item : Type := mkItem {
  item_id : option Z;
  item_status : option string;
  item_notes : option (option string)
}.

Fixpoint validate_items (l : list Item) : handler unit :=
  match l with
  | [] => ret tt
  | item :: rest =>
      reject_if (negb (truthy_num (item_id item)) || negb (truthy_str (item_status item)))
        (Json 400 false (Message ItemNeedsIdAndStatus)) ;;
      reject_if (negb (valid_status (item_status item)))
        (Json 400 false (Message StatusOneOf)) ;;
      validate_items rest
  end.

Definition item_where (sessionId : Z) (item : Item) (a : Attendance) : bool :=
  match item_id item with
  | Some i => (att_id a =? i) && (att_sessionId a =? sessionId)
  | None => false
  end.

Fixpoint update_items (sessionId user now : Z) (l : list Item) (updates : list Z)
  : handler (list Z) :=
  match l with
  | [] => ret updates
  | item :: rest =>
      found <- query (AttendanceModel.findOne (item_where sessionId item)) ;;
      match found with
      | Some attendance =>
          _ <- AttendanceModel.update attendance
                 (status_value (item_status item) (att_status attendance))
                 (defined_or (item_notes item) (att_notes attendance))
                 (Some user) (Some now) ;;
          update_items sessionId user now rest (updates ++ [att_id attendance])
      | None => update_items sessionId user now rest updates
      end
  end.

(** PUT /api/sessions/:sessionId/attendance; [user] is req.user.id and
    [now] the value of [new Date()]. *)
Definition bulkUpdateAttendance (scope : list string) (sessionId : Z)
    (attendanceData : list Item) (user now : Z) : handler Empty_set :=
  reject_if (Z.of_nat (List.length attendanceData) =? 0)
    (Json 400 false (Message AttendanceDataNonEmpty)) ;;
  ident scope "Session" ;;
  session <- query (SessionModel.findByPk sessionId) ;;
  reject_if (match session with Some _ => false | None => true end)
    (Json 404 false (Message (SessionNotFound sessionId))) ;;
  validate_items attendanceData ;;
  ident scope "Attendance" ;;
  updates <- update_items sessionId user now attendanceData [] ;;
  ident scope "Attendance" ;;
  ident scope "Op" ;;
  ident scope "User" ;;
  updatedAttendance <- query (AttendanceModel.findAll
                                (fun a => includes updates (att_id a))) ;;
  send (Json 200 true
          (AttendanceRows (Z.of_nat (List.length updatedAttendance)) updatedAttendance)).

(** *** Session filters of the statistics and report queries *)

(** Query-string parameters: [None] is a parameter that is absent or
    empty, the only falsy values a query string can carry. *)
Record SessionWhere : Type := mkWhere {
  w_date_gte : option string;
  w_date_lte : option string;
  w_batchId : option Z;
  w_sessionTypeId : option Z
}.

Definition session_matches (w : SessionWhere) (s : Session) : bool :=
  match w_date_gte w with Some lo => date_leb lo (session_date s) | None => true end
  && match w_date_lte w with Some hi => date_leb (session_date s) hi | None => true end
  && match w_batchId w with Some b => session_batchId s =? b | None => true end
  && match w_sessionTypeId w with Some t => session_sessionTypeId s =? t | None => true end.

Definition sessionWhereClause (startDate endDate : option string)
    (batchId sessionTypeId : option Z) : SessionWhere :=
  mkWhere
    (if truthy_str startDate || truthy_str endDate
     then (if truthy_str startDate then startDate else None) else None)
    (if truthy_str startDate || truthy_str endDate
     then (if truthy_str endDate then endDate else None) else None)
    batchId sessionTypeId.

Definition in_sessions (sessionIds : list Z) (a : Attendance) : bool :=
  includes sessionIds (att_sessionId a).

Definition has_status (st : AttStatus) (a : Attendance) : bool :=
  AttStatus_eqb (att_status a) st.

(** *** getAttendanceStats *)

(** GET /api/attendance/stats *)
Definition getAttendanceStats (scope : list string)
    (startDate endDate : option string) (batchId : option Z) : handler Empty_set :=
  (if truthy_str startDate || truthy_str endDate then ident scope "Op" else ret tt) ;;
  ident scope "Session" ;;
  sessions <- query (SessionModel.findAll
                       (session_matches (sessionWhereClause startDate endDate batchId None))) ;;
  let sessionIds := map session_id sessions in
  reject_if (Z.of_nat (List.length sessionIds) =? 0)
    (Json 200 true (Stats (mkStats 0 0 (mkCounts 0 0 0 0) 0%Q))) ;;
  ident scope "Attendance" ;;
  ident scope "Op" ;;
  totalAttendanceRecords <- query (AttendanceModel.count (in_sessions sessionIds)) ;;
  presentCount <- query (AttendanceModel.count
                           (fun a => in_sessions sessionIds a && has_status present a)) ;;
  absentCount <- query (AttendanceModel.count
                          (fun a => in_sessions sessionIds a && has_status absent a)) ;;
  lateCount <- query (AttendanceModel.count
                        (fun a => in_sessions sessionIds a && has_status late a)) ;;
  excusedCount <- query (AttendanceModel.count
                           (fun a => in_sessions sessionIds a && has_status excused a)) ;;
  let attendanceRate := rate_of (presentCount + lateCount) totalAttendanceRecords in
  send (Json 200 true
          (Stats (mkStats (Z.of_nat (List.length sessions)) totalAttendanceRecords
                    (mkCounts presentCount absentCount lateCount excusedCount)
                    (toFixed2 attendanceRate)))).

(** *** createAttendanceRecords and generateAttendanceForBatch *)

Definition existing_where (sessionId : Z) (userIds : list Z) (a : Attendance) : bool :=
  (att_sessionId a =? sessionId) && includes userIds (att_userId a).

Definition newRecords (sessionId : Z) (st : AttStatus) (notes : option string)
    (user now : Z) (userIds : list Z) : list AttendanceModel.Values :=
  map (fun userId =>
         AttendanceModel.mkValues sessionId userId st notes (Some user) (Some now))
      userIds.

(** POST /api/sessions/:sessionId/attendance *)
Definition createAttendanceRecords (scope : list string) (sessionId : Z)
    (userIds : list Z) (defaultStatus : option string) (user now : Z)
  : handler Empty_set :=
  reject_if (Z.of_nat (List.length userIds) =? 0)
    (Json 400 false (Message UserIdsNonEmpty)) ;;
  ident scope "Session" ;;
  session <- query (SessionModel.findByPk sessionId) ;;
  reject_if (match session with Some _ => false | None => true end)
    (Json 404 false (Message (SessionNotFound sessionId))) ;;
  let status := Some (str_or defaultStatus "absent") in
  reject_if (negb (valid_status status)) (Json 400 false (Message StatusOneOf)) ;;
  ident scope "Attendance" ;;
  ident scope "Op" ;;
  existingRecords <- query (AttendanceModel.findAll (existing_where sessionId userIds)) ;;
  let existingUserIds := map att_userId existingRecords in
  let newUserIds := filter (fun id => negb (includes existingUserIds id)) userIds in
  reject_if (Z.of_nat (List.length newUserIds) =? 0)
    (Json 400 false (Message AllSpecifiedHaveRecords)) ;;
  ident scope "Attendance" ;;
  createdRecords <- AttendanceModel.bulkCreate
                      (newRecords sessionId (status_value status absent) None
                         user now newUserIds) ;;
  ident scope "Attendance" ;;
  ident scope "Op" ;;
  ident scope "User" ;;
  ident scope "Session" ;;
  ident scope "SessionType" ;;
  ident scope "Batch" ;;
  records <- query (AttendanceModel.findAll
                      (fun a => includes (map att_id createdRecords) (att_id a))) ;;
  send (Json 201 true (AttendanceRows (Z.of_nat (List.length records)) records)).

(** What the handlers read as [session.batch], [session.sessionType]
    and [user.division] after an eager load.  [lower] says whether the
    object-relational layer exposes the loaded rows under these
    lower-case property names; when it does not, the properties are
    undefined. *)
Definition session_batch (lower : bool) (s : Session) (d : DB) : option Batch :=
  if lower then BatchModel.findByPk (session_batchId s) d else None.

Definition session_sessionType (lower : bool) (s : Session) (d : DB)
  : option SessionType :=
  if lower then SessionTypeModel.findByPk (Some (session_sessionTypeId s)) d else None.

Definition user_division (lower : bool) (u : User) (d : DB) : option Division :=
  if lower then
    match user_divisionId u with
    | Some i => DivisionModel.findByPk i d
    | None => None
    end
  else None.

(** [session.batch.name] *)
Definition session_batch_name (lower : bool) (s : Session) : handler string :=
  batch <- query (session_batch lower s) ;;
  match batch with
  | Some b => ret (batch_name b)
  | None => throw (TypeError "session.batch")
  end.

(** POST /api/sessions/:sessionId/generate-attendance *)
Definition generateAttendanceForBatch (scope : list string) (lower : bool)
    (sessionId : Z) (defaultStatus : option string) (user now : Z)
  : handler Empty_set :=
  ident scope "Session" ;;
  ident scope "Batch" ;;
  found <- query (SessionModel.findByPk sessionId) ;;
  match found with
  | None => send (Json 404 false (Message (SessionNotFound sessionId)))
  | Some session =>
      reject_if (session_batchId session =? 0)
        (Json 400 false (Message SessionWithoutBatch)) ;;
      let status := Some (str_or defaultStatus "absent") in
      reject_if (negb (valid_status status)) (Json 400 false (Message StatusOneOf)) ;;
      ident scope "User" ;;
      users <- query (UserModel.findAll
                        (SessionController.santri_of_batch (session_batchId session))) ;;
      (if Z.of_nat (List.length users) =? 0 then
         batchName <- session_batch_name lower session ;;
         send (Json 404 false (Message (NoUsersInBatch batchName)))
       else ret tt) ;;
      ident scope "Attendance" ;;
      ident scope "Op" ;;
      existingRecords <- query (AttendanceModel.findAll
                                  (existing_where sessionId (map user_id users))) ;;
      let existingUserIds := map att_userId existingRecords in
      let newUsers :=
        filter (fun u => negb (includes existingUserIds (user_id u))) users in
      reject_if (Z.of_nat (List.length newUsers) =? 0)
        (Json 400 false (Message AllInBatchHaveRecords)) ;;
      ident scope "Attendance" ;;
      createdRecords <- AttendanceModel.bulkCreate
                          (newRecords sessionId (status_value status absent) None
                             user now (map user_id newUsers)) ;;
      batchName <- session_batch_name lower session ;;
      send (Json 201 true
              (Message (CreatedForBatch (Z.of_nat (List.length createdRecords))
                          batchName)))
  end.

(** *** bulkCreateUpdateFilteredAttendance *)

(** [sequelize.transaction(async (t) => { ... })]: the writes of the
    callback are committed when it resolves and rolled back when it
    throws. *)
Definition transaction {A : Type} (callback : handler A) : handler A :=
  fun d =>
    match callback d with
    | Next a d' => Next a d'
    | Sent r _ => Sent r d
    end.

(** recordsToUpdate.map(record => record.save({ transaction: t })) *)
Fixpoint save_all (st : AttStatus) (notes : option (option string)) (user now : Z)
    (records : list Attendance) : handler (list Attendance) :=
  match records with
  | [] => ret []
  | record :: rest =>
      saved <- AttendanceModel.update record st
                 (defined_or notes (att_notes record)) (Some user) (Some now) ;;
      others <- save_all st notes user now rest ;;
      ret (saved :: others)
  end.

(** POST /api/sessions/:sessionId/filtered-attendance *)
Definition bulkCreateUpdateFilteredAttendance (scope : list string) (sessionId : Z)
    (userIds : list Z) (status : option string) (notes : option (option string))
    (user now : Z) : handler Empty_set :=
  reject_if (Z.of_nat (List.length userIds) =? 0)
    (Json 400 false (Message UserIdsNonEmpty)) ;;
  ident scope "Session" ;;
  session <- query (SessionModel.findByPk sessionId) ;;
  reject_if (match session with Some _ => false | None => true end)
    (Json 404 false (Message (SessionNotFound sessionId))) ;;
  reject_if (negb (valid_status status)) (Json 400 false (Message StatusOneOf)) ;;
  ident scope "Attendance" ;;
  ident scope "Op" ;;
  existingRecords <- query (AttendanceModel.findAll (existing_where sessionId userIds)) ;;
  let existingUserIds := map att_userId existingRecords in
  let recordsToUpdate := existingRecords in
  let newUserIds := filter (fun id => negb (includes existingUserIds id)) userIds in
  let recordsToCreate :=
    newRecords sessionId (status_value status absent) (defined_or notes None)
      user now newUserIds in
  ident scope "sequelize" ;;
  results <- transaction
    (updated <- save_all (status_value status absent) notes user now recordsToUpdate ;;
     created <- (if 0 <? Z.of_nat (List.length recordsToCreate) then
                   ident scope "Attendance" ;;
                   AttendanceModel.bulkCreate recordsToCreate
                 else ret []) ;;
     ret (updated, created)) ;;
  let updated := Z.of_nat (List.length (fst results)) in
  let created := Z.of_nat (List.length (snd results)) in
  send (Json 200 true
          (Counts updated created (updated + created)
             (UpdatedAndCreated updated created))).

(** *** getAttendanceReports *)

Record Tally : Type := mkTally {
  t_name : string;
  t_totalRecords : Z;
  t_counts : StatusCounts
}.

(** A grouping object ([batchMap], [divisionMap], [sessionTypeMap]) with
    its keys in the order [Object.values] lists them: ids, ascending. *)
Definition GroupMap : Type := list (Z * Tally).

(** [if (!map[key]) map[key] = { name, totalRecords: 0, present: 0, ... }] *)
Fixpoint declare (key : Z) (name : string) (m : GroupMap) : GroupMap :=
  match m with
  | [] => [(key, mkTally name 0 (mkCounts 0 0 0 0))]
  | (k, t) :: m' =>
      if key =? k then m
      else if key <? k then (key, mkTally name 0 (mkCounts 0 0 0 0)) :: m
      else (k, t) :: declare key name m'
  end.

Definition count_status (st : AttStatus) (c : StatusCounts) : StatusCounts :=
  match st with
  | present => mkCounts (n_present c + 1) (n_absent c) (n_late c) (n_excused c)
  | absent => mkCounts (n_present c) (n_absent c + 1) (n_late c) (n_excused c)
  | late => mkCounts (n_present c) (n_absent c) (n_late c + 1) (n_excused c)
  | excused => mkCounts (n_present c) (n_absent c) (n_late c) (n_excused c + 1)
  end.

(** [if (map[key]) { map[key].totalRecords++; map[key][status]++ }] *)
Fixpoint tally (key : Z) (st : AttStatus) (m : GroupMap) : GroupMap :=
  match m with
  | [] => []
  | (k, t) :: m' =>
      if key =? k
      then (k, mkTally (t_name t) (t_totalRecords t + 1) (count_status st (t_counts t))) :: m'
      else (k, t) :: tally key st m'
  end.

Definition group_of (entry : Z * Tally) : Group :=
  let t := snd entry in
  mkGroup (fst entry) (t_name t) (t_totalRecords t) (t_counts t)
    (rate_of (n_present (t_counts t) + n_late (t_counts t)) (t_totalRecords t)).

Definition count_where (p : Attendance -> bool) (l : list Attendance) : Z :=
  Z.of_nat (List.length (filter p l)).

(** The statistics block built from the loaded sessions, users and
    attendance rows. *)
Definition statistics_of (lower : bool) (d : DB) (sessions : list Session)
    (users : list User) (attendanceRecords : list Attendance) : Statistics :=
  let byStatus :=
    mkCounts (count_where (has_status present) attendanceRecords)
             (count_where (has_status absent) attendanceRecords)
             (count_where (has_status late) attendanceRecords)
             (count_where (has_status excused) attendanceRecords) in
  let batchMap0 :=
    fold_left (fun m s => match session_batch lower s d with
                          | Some b => declare (batch_id b) (batch_name b) m
                          | None => m
                          end) sessions [] in
  let divisionMap0 :=
    fold_left (fun m u => match user_division lower u d with
                          | Some x => declare (division_id x) (division_name x) m
                          | None => m
                          end) users [] in
  let sessionTypeMap0 :=
    fold_left (fun m s => match session_sessionType lower s d with
                          | Some t => declare (sessionType_id t) (sessionType_name t) m
                          | None => m
                          end) sessions [] in
  let session_of (r : Attendance) :=
    find (fun s => session_id s =? att_sessionId r) sessions in
  let user_of (r : Attendance) :=
    find (fun u => user_id u =? att_userId r) users in
  let batchMap :=
    fold_left (fun m r =>
                 match session_of r with
                 | Some s => match session_batch lower s d with
                             | Some b => tally (batch_id b) (att_status r) m
                             | None => m
                             end
                 | None => m
                 end) attendanceRecords batchMap0 in
  let divisionMap :=
    fold_left (fun m r =>
                 match user_of r with
                 | Some u => match user_division lower u d with
                             | Some x => tally (division_id x) (att_status r) m
                             | None => m
                             end
                 | None => m
                 end) attendanceRecords divisionMap0 in
  let sessionTypeMap :=
    fold_left (fun m r =>
                 match session_of r with
                 | Some s => match session_sessionType lower s d with
                             | Some t => tally (sessionType_id t) (att_status r) m
                             | None => m
                             end
                 | None => m
                 end) attendanceRecords sessionTypeMap0 in
  let totalRecords := Z.of_nat (List.length attendanceRecords) in
  mkStatistics (Z.of_nat (List.length sessions)) (Z.of_nat (List.length users))
    totalRecords byStatus
    (map group_of batchMap) (map group_of divisionMap) (map group_of sessionTypeMap)
    (rate_of (n_present byStatus + n_late byStatus) totalRecords).

Definition userWhereClause (divisionId : option Z) (u : User) : bool :=
  UserModel.is_santri u
  && match divisionId with
     | Some x => UserModel.in_division x u
     | None => true
     end.

Definition summary (lower : bool) (d : DB) (s : Session) : SessionSummary :=
  mkSummary (session_id s) (session_date s)
    (option_map batch_name (session_batch lower s d))
    (option_map sessionType_name (session_sessionType lower s d)).

(** GET /api/attendance/reports *)
Definition getAttendanceReports (scope : list string) (lower : bool)
    (startDate endDate : option string) (batchId divisionId sessionTypeId : option Z)
  : handler Empty_set :=
  (if truthy_str startDate || truthy_str endDate then ident scope "Op" else ret tt) ;;
  ident scope "Session" ;;
  ident scope "SessionType" ;;
  ident scope "Batch" ;;
  found <- query (SessionModel.findAll
                    (session_matches
                       (sessionWhereClause startDate endDate batchId sessionTypeId))) ;;
  let sessions := order_by (fun a b => date_leb (session_date b) (session_date a)) found in
  reject_if (Z.of_nat (List.length sessions) =? 0)
    (Json 200 true (Report (Some NoSessionsFound) [] None)) ;;
  ident scope "User" ;;
  ident scope "Batch" ;;
  ident scope "Division" ;;
  foundUsers <- query (UserModel.findAll (userWhereClause divisionId)) ;;
  let users := order_by (fun a b => String.leb (user_name a) (user_name b)) foundUsers in
  let sessionIds := map session_id sessions in
  let userIds := map user_id users in
  ident scope "Attendance" ;;
  ident scope "Op" ;;
  attendanceRecords <- query (AttendanceModel.findAll
                                (fun a => in_sessions sessionIds a
                                          && includes userIds (att_userId a))) ;;
  statistics <- query (fun d => statistics_of lower d sessions users attendanceRecords) ;;
  summaries <- query (fun d => map (summary lower d) sessions) ;;
  send (Json 200 true (Report None summaries (Some statistics))).

End AttendanceController.

(** * Properties *)

(** ** A small store used to exercise the handlers *)

Module Sample.

Definition users : list User :=
  [ mkUser 10 "Ali" santri (Some 1) (Some 1);
    mkUser 11 "Budi" santri (Some 1) None;
    mkUser 12 "Citra" staff (Some 1) None;
    mkUser 20 "Dewi" santri (Some 2) None ].

Definition batches : list Batch :=
  [ mkBatch 1 "2025 Cohort" 2025 true;
    mkBatch 2 "2026 Cohort" 2026 true;
    mkBatch 3 "Reserve" 2026 true ].

Definition divisions : list Division :=
  [ mkDivision 1 "Tahfidz" None true;
    mkDivision 2 "Kitchen" None true ].

Definition sessionTypes : list SessionType := [ mkSessionType 1 "Subuh" ].

Definition sessions : list Session :=
  [ mkSession 1 "2025-01-10" "05:00" "06:00" 1 1 1 scheduled ].

Definition attendances : list Attendance :=
  [ mkAttendance 1 1 10 absent None None None None;
    mkAttendance 2 1 11 absent None None None None ].

Definition db : DB := mkDB users batches divisions sessionTypes sessions attendances.


(** Session 1 with a row for a santri user and a row for a staff user. *)
Definition mixed : DB :=
  mkDB users batches divisions sessionTypes sessions
       [ mkAttendance 1 1 10 present None None (Some 12) (Some 1000);
         mkAttendance 2 1 12 absent None None (Some 12) (Some 1000) ].

End Sample.

(** ** Vocabulary of the statements *)

Definition references_batch (id : Z) (u : User) : Prop := user_batchId u = Some id.

Definition references_division (id : Z) (u : User) : Prop := user_divisionId u = Some id.


(** [wp h Q R d]: started in store [d], the handler [h] either goes on
    with a value and a store satisfying [Q] or has sent a response, the
    response and the store satisfying [R]. *)
Definition wp {A : Type} (h : handler A) (Q : A -> DB -> Prop)
    (R : response -> DB -> Prop) (d : DB) : Prop :=
  match h d with
  | Next a d' => Q a d'
  | Sent r d' => R r d'
  end.

(** An entry of [attendanceData] as the specification wants it: it has an
    id, it has a status, and the status is one of the four. *)
Definition item_ok (item : AttendanceController.Item) : bool :=
  truthy_num (AttendanceController.item_id item)
  && truthy_str (AttendanceController.item_status item)
  && AttendanceController.valid_status (AttendanceController.item_status item).

(** The effect one entry is specified to have on one attendance row: the
    row is rewritten when both its id and its session are the entry's,
    and is left alone otherwise. *)
Definition apply_item (sessionId user now : Z) (a : Attendance)
    (item : AttendanceController.Item) : Attendance :=
  if AttendanceController.item_where sessionId item a then
    mkAttendance (att_id a) (att_sessionId a) (att_userId a)
      (AttendanceController.status_value (AttendanceController.item_status item)
         (att_status a))
      (att_checkInTime a)
      (defined_or (AttendanceController.item_notes item) (att_notes a))
      (Some user) (Some now)
  else a.

(** The entries applied to a row one after the other. *)
Definition apply_items (sessionId user now : Z)
    (data : list AttendanceController.Item) (a : Attendance) : Attendance :=
  fold_left (apply_item sessionId user now) data a.

(** The user already has an attendance row for the session. *)
Definition has_row (d : DB) (sessionId userId : Z) : Prop :=
  exists a, In a (Attendances d) /\ att_sessionId a = sessionId /\ att_userId a = userId.

Definition pair_of (a : Attendance) : Z * Z := (att_sessionId a, att_userId a).

(** At most one attendance row per (sessionId, userId). *)
Definition unique_pairs (rows : list Attendance) : Prop := NoDup (map pair_of rows).

(** The users [generateAttendanceForBatch] targets: the santri users of
    the batch of the session. *)
Definition targets (d : DB) (sessionId : Z) : list User :=
  match SessionModel.findByPk sessionId d with
  | Some s => UserModel.findAll (SessionController.santri_of_batch (session_batchId s)) d
  | None => []
  end.

(** *** Statistics *)

(** The session filter in the words of the specification: the date lies
    in the inclusive range and the session belongs to the batch; a bound
    or a batch that is not given does not restrict. *)
Definition in_filter (startDate endDate : option string) (batchId : option Z)
    (s : Session) : bool :=
  (if truthy_str startDate then date_leb (defined_or startDate "") (session_date s)
   else true)
  && (if truthy_str endDate then date_leb (session_date s) (defined_or endDate "")
      else true)
  && match batchId with
     | Some b => session_batchId s =? b
     | None => true
     end.

Definition matching_sessions (startDate endDate : option string) (batchId : option Z)
    (d : DB) : list Session :=
  filter (in_filter startDate endDate batchId) (Sessions d).

(** The attendance rows of the given sessions. *)
Definition rows_of (ss : list Session) (d : DB) : list Attendance :=
  filter (fun a => existsb (fun s => session_id s =? att_sessionId a) ss) (Attendances d).

Definition status_count (st : AttStatus) (rows : list Attendance) : Z :=
  Z.of_nat (List.length (filter (fun a => AttStatus_eqb (att_status a) st) rows)).

Definition total (rows : list Attendance) : Z := Z.of_nat (List.length rows).







From Stdlib Require Import Permutation.

(** * The remaining handlers of the controllers

    The handlers below answer through [reply], which adds the bodies and
    messages they need to those of the first part.  A handler of this
    part returns its answer as a value; [finish] also collects what a
    handler sent through [send] or raised through [throw]. *)

Inductive notice : Type :=
| DivisionAlreadyExists
| AttendanceNotFound (id : Z)
| UserNotFound (id : Z)
| CannotDeleteSessionType (sessionCount : Z)
| TimeFormat
| EndTimeAfterStartTime.

Inductive failure : Type :=
| Js (e : js_error)
| InvalidWhere (field : string).  (* WHERE parameter has invalid "undefined" value *)

Inductive reply_data : Type :=
| Known (p : payload)
| Notice (m : notice)
| BatchWithUsers (b : Batch) (users : list User)
| DivisionData (x : Division)
| SessionDetail (s : Session) (rows : list (Attendance * option User))
| AttendanceData (a : option Attendance)
| AttendanceList (count : Z) (rows : list Attendance)
| UsersForAttendance (count : Z) (rows : list (User * list Attendance)).

Inductive reply : Type :=
| Answer (code : Z) (success : bool) (data : reply_data)
| Raised (e : failure).

Definition reply_of (r : response) : reply :=
  match r with
  | Json code ok p => Answer code ok (Known p)
  | NextError e => Raised (Js e)
  end.

Definition finish (h : handler reply) (d : DB) : reply * DB :=
  match h d with
  | Next r d' => (r, d')
  | Sent r d' => (reply_of r, d')
  end.

Definition answered (r : reply) : bool :=
  match r with
  | Answer _ ok _ => ok
  | Raised _ => false
  end.

(** ** controllers/batch.controller.js, continued *)

Module Batches.

(** [Batch.create(values)]: validates, then INSERT *)
Definition create (name : string) (year : Z) (isActive : bool) : handler Batch :=
  next_id <- query (fun d => fresh_id (map batch_id (Batches d))) ;;
  let b := mkBatch next_id name year isActive in
  if BatchModel.valid b then
    exec (fun d => with_Batches d (Batches d ++ [b])) ;;
    ret b
  else throw (SequelizeValidationError "Batch").


(** POST /api/batches.  A key missing from the body is [None]; a
    [where] object holding an undefined value makes the query fail. *)
Definition createBatch (scope : list string) (body : BatchController.Body)
  : handler reply :=
  ident scope "Batch" ;;
  match BatchController.name body, BatchController.year body with
  | None, _ => ret (Raised (InvalidWhere "name"))
  | Some _, None => ret (Raised (InvalidWhere "year"))
  | Some name, Some year =>
      batchExists <- query (BatchModel.findOne (fun x =>
        String.eqb (batch_name x) name && (batch_year x =? year))) ;;
      match batchExists with
      | Some _ => ret (Answer 400 false (Known (Message BatchAlreadyExists)))
      | None =>
          ident scope "Batch" ;;
          batch <- create name year (defined_or (BatchController.isActive body) true) ;;
          ret (Answer 201 true (Known (BatchData batch)))
      end
  end.

End Batches.

(** ** controllers/division.controller.js, continued *)

Module Divisions.

Record Body : Type := mkBody {
  name : option string;
  description : option (option string);  (* [None] is a missing key *)
  isActive : option bool
}.

(** The Division model: name is [allowNull: false] and [notEmpty]. *)
Definition valid (x : Division) : bool := negb (String.eqb (division_name x) "").

Definition findOne (where_ : Division -> bool) (d : DB) : option Division :=
  find where_ (Divisions d).

Definition create (name : string) (description : option string) (isActive : bool)
  : handler Division :=
  next_id <- query (fun d => fresh_id (map division_id (Divisions d))) ;;
  let x := mkDivision next_id name description isActive in
  if valid x then
    exec (fun d => with_Divisions d (Divisions d ++ [x])) ;;
    ret x
  else throw (SequelizeValidationError "Division").

(** [division.update(values)]: validates, then UPDATE .. WHERE id = division.id *)
Definition update (x : Division) (name : string) (description : option string)
    (isActive : bool) : handler Division :=
  let x' := mkDivision (division_id x) name description isActive in
  if valid x' then
    exec (fun d => with_Divisions d
            (map (fun y => if division_id y =? division_id x then x' else y)
               (Divisions d))) ;;
    ret x'
  else throw (SequelizeValidationError "Division").

(** POST /api/divisions *)
Definition createDivision (scope : list string) (body : Body) : handler reply :=
  ident scope "Division" ;;
  match name body with
  | None => ret (Raised (InvalidWhere "name"))
  | Some n =>
      divisionExists <- query (findOne (fun x => String.eqb (division_name x) n)) ;;
      match divisionExists with
      | Some _ => ret (Answer 400 false (Notice DivisionAlreadyExists))
      | None =>
          ident scope "Division" ;;
          division <- create n (defined_or (description body) None)
                        (defined_or (isActive body) true) ;;
          ret (Answer 201 true (DivisionData division))
      end
  end.

(** PUT /api/divisions/:id *)
Definition updateDivision (scope : list string) (id : Z) (body : Body)
  : handler reply :=
  ident scope "Division" ;;
  found <- query (DivisionModel.findByPk id) ;;
  match found with
  | None => ret (Answer 404 false (Known (Message (DivisionNotFound id))))
  | Some division =>
      duplicateDivision <-
        (if truthy_str (name body)
            && negb (String.eqb (defined_or (name body) "") (division_name division))
         then
           ident scope "Division" ;;
           ident scope "Op" ;;
           query (findOne (fun x =>
             negb (division_id x =? id)
             && String.eqb (division_name x) (defined_or (name body) "")))
         else ret None) ;;
      match duplicateDivision with
      | Some _ => ret (Answer 400 false (Notice DivisionAlreadyExists))
      | None =>
          division' <- update division
                         (str_or (name body) (division_name division))
                         (defined_or (description body) (division_description division))
                         (defined_or (isActive body) (division_isActive division)) ;;
          ret (Answer 200 true (DivisionData division'))
      end
  end.

End Divisions.

(** ** controllers/session.controller.js, continued *)

Module Sessions.

Definition user_of (d : DB) (a : Attendance) : option User :=
  find (fun u => user_id u =? att_userId a) (Users d).

(** [session.destroy()]: DELETE .. WHERE id = session.id *)
Definition destroy (s : Session) : handler unit :=
  exec (fun d => with_Sessions d
          (filter (fun x => negb (session_id x =? session_id s)) (Sessions d))).

(** GET /api/sessions/:id *)
Definition getSession (scope : list string) (id : Z) : handler reply :=
  ident scope "Session" ;;
  ident scope "SessionType" ;;
  ident scope "Batch" ;;
  ident scope "Attendance" ;;
  ident scope "User" ;;
  found <- query (SessionModel.findByPk id) ;;
  match found with
  | None => ret (Answer 404 false (Known (Message (SessionNotFound id))))
  | Some session =>
      rows <- query (AttendanceModel.findAll
                       (fun a => att_sessionId a =? session_id session)) ;;
      withUsers <- query (fun d => map (fun a => (a, user_of d a)) rows) ;;
      ret (Answer 200 true (SessionDetail session withUsers))
  end.

(** DELETE /api/sessions/:id *)
Definition deleteSession (scope : list string) (id : Z) : handler reply :=
  ident scope "Session" ;;
  found <- query (SessionModel.findByPk id) ;;
  match found with
  | None => ret (Answer 404 false (Known (Message (SessionNotFound id))))
  | Some session =>
      ident scope "Attendance" ;;
      AttendanceModel.destroy (fun a => att_sessionId a =? id) ;;
      destroy session ;;
      ret (Answer 200 true (Known EmptyData))
  end.

End Sessions.

(** ** controllers/attendance.controller.js, continued *)

Module AttendanceRows.

Definition findByPk (id : Z) (d : DB) : option Attendance :=
  find (fun a => att_id a =? id) (Attendances d).


(** PUT /api/attendance/:id; [user] is req.user.id and [now] the value
    of [new Date()]. *)
Definition updateAttendance (scope : list string) (id : Z) (status : option string)
    (notes : option (option string)) (user now : Z) : handler reply :=
  ident scope "Attendance" ;;
  ident scope "User" ;;
  ident scope "Session" ;;
  ident scope "SessionType" ;;
  ident scope "Batch" ;;
  found <- query (findByPk id) ;;
  match found with
  | None => ret (Answer 404 false (Notice (AttendanceNotFound id)))
  | Some attendance =>
      if negb (AttendanceController.valid_status status) then
        ret (Answer 400 false (Known (Message StatusOneOf)))
      else
        attendance' <- AttendanceModel.update attendance
                         (AttendanceController.status_value status (att_status attendance))
                         (defined_or notes (att_notes attendance))
                         (Some user) (Some now) ;;
        ident scope "Attendance" ;;
        ident scope "User" ;;
        ident scope "Session" ;;
        ident scope "SessionType" ;;
        ident scope "Batch" ;;
        refetched <- query (findByPk (att_id attendance')) ;;
        ret (Answer 200 true (AttendanceData refetched))
  end.

(** The session a row is joined with. *)
Definition session_of (d : DB) (a : Attendance) : option Session :=
  SessionModel.findByPk (att_sessionId a) d.


(** GET /api/sessions/:sessionId/users-for-attendance; [batchId] and
    [divisionId] are query-string parameters. *)
Definition getUsersForAttendance (scope : list string) (sessionId : Z)
    (batchId divisionId : option Z) : handler reply :=
  ident scope "Session" ;;
  found <- query (SessionModel.findByPk sessionId) ;;
  match found with
  | None => ret (Answer 404 false (Known (Message (SessionNotFound sessionId))))
  | Some session =>
      let batchFilter :=
        match batchId with
        | Some b => Some b
        | None => if session_batchId session =? 0 then None
                  else Some (session_batchId session)
        end in
      let userWhereClause (u : User) :=
        UserModel.is_santri u
        && match batchFilter with Some b => UserModel.in_batch b u | None => true end
        && match divisionId with Some x => UserModel.in_division x u | None => true end in
      ident scope "User" ;;
      ident scope "Batch" ;;
      ident scope "Division" ;;
      ident scope "Attendance" ;;
      foundUsers <- query (UserModel.findAll userWhereClause) ;;
      let users := order_by (fun a b => String.leb (user_name a) (user_name b)) foundUsers in
      rows <- query (fun d =>
        map (fun u => (u, AttendanceModel.findAll
                            (fun a => (att_userId a =? user_id u)
                                      && (att_sessionId a =? sessionId)) d)) users) ;;
      ret (Answer 200 true (UsersForAttendance (Z.of_nat (List.length rows)) rows))
  end.

End AttendanceRows.

(** ** controllers/sessionType.controller.js *)

Module SessionTypes.

(** const { SessionType, Session } = require('../models');
    const { Op } = require('sequelize'); *)
Definition imports : list string := ["SessionType"; "Session"; "Op"].

Definition is_colon (c : ascii) : bool := Ascii.eqb c ":"%char.

Definition char_in (lo hi : nat) (c : ascii) : bool :=
  ((lo <=? nat_of_ascii c) && (nat_of_ascii c <=? hi))%nat.

(** /^([01]\d|2[0-3]):([0-5]\d)$/.test(s) *)
Definition timeRegex_test (s : string) : bool :=
  match list_ascii_of_string s with
  | [h1; h2; c; m1; m2] =>
      ((char_in 48 49 h1 && is_digit h2) || (Ascii.eqb h1 "2"%char && char_in 48 51 h2))
      && is_colon c && char_in 48 53 m1 && is_digit m2
  | _ => false
  end.

(** [timeRegex.test(x)] on a body field: a missing key is tested as the
    text "undefined". *)
Definition timeRegex_test_field (x : option string) : bool :=
  match x with
  | Some s => timeRegex_test s
  | None => false
  end.

(** The checks createSessionType makes on startTime and endTime before
    its first query: the answer it sends, if any.  [a >= b] on two
    strings compares them in dictionary order. *)
Definition createSessionType_checks (startTime endTime : option string) : option reply :=
  if negb (timeRegex_test_field startTime) || negb (timeRegex_test_field endTime) then
    Some (Answer 400 false (Notice TimeFormat))
  else if String.leb (defined_or endTime "") (defined_or startTime "") then
    Some (Answer 400 false (Notice EndTimeAfterStartTime))
  else None.

Definition session_count (where_ : Session -> bool) (d : DB) : Z :=
  Z.of_nat (List.length (filter where_ (Sessions d))).

(** [sessionType.destroy()] *)
Definition destroy (t : SessionType) : handler unit :=
  exec (fun d =>
          mkDB (Users d) (Batches d) (Divisions d)
            (filter (fun x => negb (sessionType_id x =? sessionType_id t)) (SessionTypes d))
            (Sessions d) (Attendances d)).

(** DELETE /api/session-types/:id *)
Definition deleteSessionType (scope : list string) (id : Z) : handler reply :=
  ident scope "SessionType" ;;
  found <- query (SessionTypeModel.findByPk (Some id)) ;;
  match found with
  | None => ret (Answer 404 false (Known (Message (SessionTypeNotFound (Some id)))))
  | Some sessionType =>
      ident scope "Session" ;;
      sessionCount <- query (session_count (fun s => session_sessionTypeId s =? id)) ;;
      if 0 <? sessionCount then
        ret (Answer 400 false (Notice (CannotDeleteSessionType sessionCount)))
      else
        destroy sessionType ;;
        ret (Answer 200 true (Known EmptyData))
  end.

End SessionTypes.

(** ** Vocabulary of the further statements *)

Definition batch_key (b : Batch) : string * Z := (batch_name b, batch_year b).

(** No two batches with the same name and year. *)
Definition unique_batch_keys (l : list Batch) : Prop := NoDup (map batch_key l).

(** No two divisions with the same name. *)
Definition unique_division_names (l : list Division) : Prop :=
  NoDup (map division_name l).

Definition session_key (s : Session) : string * Z * Z :=
  (session_date s, session_sessionTypeId s, session_batchId s).

(** No two sessions with the same date, session type and batch. *)
Definition unique_session_keys (l : list Session) : Prop := NoDup (map session_key l).

(** Minutes since midnight of a text HH:MM. *)
Definition minutes_of (s : string) : nat :=
  match list_ascii_of_string s with
  | [h1; h2; _; m1; m2] =>
      (10 * digit_val h1 + digit_val h2) * 60 + (10 * digit_val m1 + digit_val m2)
  | _ => 0
  end.

(** The row [updateAttendance] writes in place of [a]. *)
Definition updated_row (a : Attendance) (st : AttStatus) (notes : option (option string))
    (user now : Z) : Attendance :=
  mkAttendance (att_id a) (att_sessionId a) (att_userId a) st (att_checkInTime a)
    (defined_or notes (att_notes a)) (Some user) (Some now).
(** ** Counting and lookup *)

Lemma count_positive {A : Type} (p : A -> bool) (l : list A) :
  (0 <? Z.of_nat (List.length (filter p l))) = true <->
  exists x, In x l /\ p x = true.
Proof.
  rewrite Z.ltb_lt. split.
  - intros H. destruct (filter p l) as [|x f] eqn:E.
    + simpl in H. lia.
    + exists x. apply filter_In. rewrite E. now left.
  - intros [x Hx]. apply filter_In in Hx.
    destruct (filter p l); [destruct Hx | simpl; lia].
Qed.

Lemma count_zero {A : Type} (p : A -> bool) (l : list A) :
  (0 <? Z.of_nat (List.length (filter p l))) = false <->
  forall x, In x l -> p x = false.
Proof.
  split.
  - intros H x Hx. destruct (p x) eqn:E; [|reflexivity].
    assert (T : (0 <? Z.of_nat (List.length (filter p l))) = true)
      by (apply count_positive; eauto).
    congruence.
  - intros H. destruct (0 <? _) eqn:E; [|reflexivity].
    apply count_positive in E. destruct E as [x [Hx Px]].
    rewrite (H x Hx) in Px. discriminate.
Qed.

Lemma find_after_delete {A : Type} (key : A -> Z) (id : Z) (l : list A) :
  find (fun x => key x =? id) (filter (fun x => negb (key x =? id)) l) = None.
Proof.
  induction l as [|x l IH]; simpl; [reflexivity|].
  destruct (key x =? id) eqn:E; simpl; [exact IH|].
  rewrite E. exact IH.
Qed.

Lemma find_key {A : Type} (key : A -> Z) (id : Z) (l : list A) (x : A) :
  find (fun y => key y =? id) l = Some x -> key x = id /\ In x l.
Proof.
  intros H. apply find_some in H. destruct H as [H1 H2].
  apply Z.eqb_eq in H2. auto.
Qed.

(** ** Reasoning about handlers *)

Section WpRules.

Context {A B : Type}.
Variable Q : B -> DB -> Prop.
Variable R : response -> DB -> Prop.

Lemma wp_bind (m : handler A) (k : A -> handler B) (d : DB) :
  wp m (fun a d' => wp (k a) Q R d') R d -> wp (bind m k) Q R d.
Proof. unfold wp, bind. destruct (m d); auto. Qed.

Lemma wp_ret (b : B) (d : DB) : Q b d -> wp (ret b) Q R d.
Proof. auto. Qed.

Lemma wp_send (r : response) (d : DB) : R r d -> wp (send r) Q R d.
Proof. auto. Qed.

Lemma wp_query (f : DB -> B) (d : DB) : Q (f d) d -> wp (query f) Q R d.
Proof. auto. Qed.

End WpRules.

Lemma wp_exec (Q : unit -> DB -> Prop) (R : response -> DB -> Prop)
    (f : DB -> DB) (d : DB) :
  Q tt (f d) -> wp (exec f) Q R d.
Proof. auto. Qed.

Lemma wp_reject_if (Q : unit -> DB -> Prop) (R : response -> DB -> Prop)
    (c : bool) (r : response) (d : DB) :
  (c = true -> R r d) -> (c = false -> Q tt d) -> wp (reject_if c r) Q R d.
Proof. destruct c; unfold reject_if; intros H1 H2; [apply H1|apply H2]; reflexivity. Qed.

Lemma wp_ident_bound (Q : unit -> DB -> Prop) (R : response -> DB -> Prop)
    (scope : list string) (x : string) (d : DB) :
  bound scope x = true -> Q tt d -> wp (ident scope x) Q R d.
Proof. intros Hb H. unfold ident. rewrite Hb. exact H. Qed.

Lemma wp_ident_unbound (Q : unit -> DB -> Prop) (R : response -> DB -> Prop)
    (scope : list string) (x : string) (d : DB) :
  bound scope x = false -> R (NextError (ReferenceError x)) d ->
  wp (ident scope x) Q R d.
Proof. intros Hb H. unfold ident. rewrite Hb. exact H. Qed.

Lemma wp_run (P : response * DB -> Prop) (h : handler Empty_set) (d : DB) :
  wp h (fun a _ => match a return Prop with end) (fun r d' => P (r, d')) d ->
  P (run h d).
Proof. unfold wp, run. destruct (h d) as [a|r d']; [destruct a|auto]. Qed.

Lemma wp_weaken {A : Type} (h : handler A) (Q Q' : A -> DB -> Prop)
    (R R' : response -> DB -> Prop) (d : DB) :
  wp h Q R d ->
  (forall a d', Q a d' -> Q' a d') -> (forall r d', R r d' -> R' r d') ->
  wp h Q' R' d.
Proof. unfold wp. destruct (h d); auto. Qed.

Lemma wp_next {A : Type} (h : handler A) (Q : A -> DB -> Prop)
    (R : response -> DB -> Prop) (d d' : DB) (a : A) :
  h d = Next a d' -> Q a d' -> wp h Q R d.
Proof. unfold wp. intros ->. auto. Qed.

Lemma wp_sent {A : Type} (h : handler A) (Q : A -> DB -> Prop)
    (R : response -> DB -> Prop) (d d' : DB) (r : response) :
  h d = Sent r d' -> R r d' -> wp h Q R d.
Proof. unfold wp. intros ->. auto. Qed.

Ltac wp_step :=
  cbv beta zeta;
  lazymatch goal with
  | |- wp (bind _ _) _ _ _ => apply wp_bind
  | |- wp (ret _) _ _ _ => apply wp_ret
  | |- wp (send _) _ _ _ => apply wp_send
  | |- wp (throw _) _ _ _ => apply wp_send
  | |- wp (query _) _ _ _ => apply wp_query
  | |- wp (exec _) _ _ _ => apply wp_exec
  | |- wp (ident _ _) _ _ _ =>
      first [ apply wp_ident_bound; [reflexivity|]
            | apply wp_ident_bound; [assumption|]
            | apply wp_ident_unbound; [reflexivity|] ]
  | |- wp (reject_if _ _) _ _ _ => apply wp_reject_if; intros ?
  end.

Ltac wp_steps := repeat wp_step; cbv beta zeta.

(** ** Batches and divisions *)

Lemma in_batch_spec (id : Z) (u : User) :
  UserModel.in_batch id u = true <-> references_batch id u.
Proof.
  unfold UserModel.in_batch, references_batch.
  destruct (user_batchId u) as [b|]; [|split; discriminate].
  rewrite Z.eqb_eq. split; congruence.
Qed.

Lemma in_division_spec (id : Z) (u : User) :
  UserModel.in_division id u = true <-> references_division id u.
Proof.
  unfold UserModel.in_division, references_division.
  destruct (user_divisionId u) as [b|]; [|split; discriminate].
  rewrite Z.eqb_eq. split; congruence.
Qed.

(** C8, as the code behaves.  updateBatch on an existing batch with a
    name and a year in the body never reaches the duplicate check: the
    batch controller does not bind [Op], so building the query raises a
    ReferenceError, the handler ends in next(error) and the store is left
    as it was.  The call ends in an internal error whether or not another
    batch has that name and year. *)
Theorem updateBatch_name_and_year_internal_error :
  forall (d : DB) (id : Z) (body : BatchController.Body) (batch : Batch),
    BatchModel.findByPk id d = Some batch ->
    truthy_str (BatchController.name body) = true ->
    truthy_num (BatchController.year body) = true ->
    run (BatchController.updateBatch BatchController.imports id body) d
    = (NextError (ReferenceError "Op"), d).
Proof.
  intros d id body batch Hfound Hname Hyear.
  unfold run, BatchController.updateBatch, bind, query, ident; simpl.
  rewrite Hfound, Hname, Hyear. reflexivity.
Qed.

Lemma updateBatch_name_and_year_internal_error_witness :
  run (BatchController.updateBatch BatchController.imports 3
         (BatchController.mkBody (Some "2027 Cohort") (Some 2027) None)) Sample.db
  = (NextError (ReferenceError "Op"), Sample.db).
Proof.
  apply (updateBatch_name_and_year_internal_error Sample.db 3
           (BatchController.mkBody (Some "2027 Cohort") (Some 2027) None)
           (mkBatch 3 "Reserve" 2026 true)); reflexivity.
Defined.

(** With [Op] in scope the same handler does what its comments say: a
    second batch with the requested name and year is reported as a
    conflict and nothing is written. *)
Lemma updateBatch_conflict_when_Op_is_bound :
  forall (d : DB) (id : Z) (n : string) (y : Z) (active : option bool)
         (batch other : Batch),
    BatchModel.findByPk id d = Some batch ->
    n <> "" -> y <> 0 ->
    In other (Batches d) -> batch_id other <> id ->
    batch_name other = n -> batch_year other = y ->
    run (BatchController.updateBatch ("Op" :: BatchController.imports) id
           (BatchController.mkBody (Some n) (Some y) active)) d
    = (Json 400 false (Message BatchAlreadyExists), d).
Proof.
  intros d id n y active batch other Hfound Hn Hy Hin Hid Hname Hyear.
  unfold run, BatchController.updateBatch, bind, query, ident; simpl.
  rewrite Hfound.
  assert (En : String.eqb n "" = false) by (now apply String.eqb_neq).
  assert (Ey : (y =? 0) = false) by (now apply Z.eqb_neq).
  rewrite En, Ey. simpl.
  destruct (BatchModel.findOne _ d) as [dup|] eqn:E; [reflexivity|].
  unfold BatchModel.findOne in E.
  apply (find_none _ _ E) in Hin.
  rewrite Hname, Hyear, String.eqb_refl, Z.eqb_refl in Hin.
  apply Z.eqb_neq in Hid. rewrite Hid in Hin. discriminate.
Qed.

(** C9.  deleteBatch and deleteDivision on an existing entity: when some
    user references it the call is rejected with status 400 and the store
    is unchanged; when no user references it the call succeeds, the
    entity is gone and every other row of its table is kept. *)
Theorem delete_is_guarded_by_user_references :
  forall (d : DB) (id : Z),
    (forall batch, BatchModel.findByPk id d = Some batch ->
       ((exists u, In u (Users d) /\ references_batch id u) ->
          exists n, 0 < n /\
            run (BatchController.deleteBatch BatchController.imports id) d
            = (Json 400 false (Message (CannotDeleteBatch n)), d))
       /\
       ((forall u, In u (Users d) -> ~ references_batch id u) ->
          exists d',
            run (BatchController.deleteBatch BatchController.imports id) d
            = (Json 200 true EmptyData, d')
            /\ BatchModel.findByPk id d' = None
            /\ Batches d' = filter (fun b => negb (batch_id b =? id)) (Batches d)
            /\ Users d' = Users d))
    /\
    (forall division, DivisionModel.findByPk id d = Some division ->
       ((exists u, In u (Users d) /\ references_division id u) ->
          exists n, 0 < n /\
            run (DivisionController.deleteDivision DivisionController.imports id) d
            = (Json 400 false (Message (CannotDeleteDivision n)), d))
       /\
       ((forall u, In u (Users d) -> ~ references_division id u) ->
          exists d',
            run (DivisionController.deleteDivision DivisionController.imports id) d
            = (Json 200 true EmptyData, d')
            /\ DivisionModel.findByPk id d' = None
            /\ Divisions d' = filter (fun x => negb (division_id x =? id)) (Divisions d)
            /\ Users d' = Users d)).
Proof.
  intros d id. split.
  - intros batch Hfound.
    destruct (find_key _ _ _ _ Hfound) as [Hid _].
    split.
    + intros [u [Hu Hr]].
      exists (UserModel.count (UserModel.in_batch id) d).
      assert (P : (0 <? UserModel.count (UserModel.in_batch id) d) = true).
      { apply count_positive. exists u. split; [exact Hu|now apply in_batch_spec]. }
      split; [now apply Z.ltb_lt|].
      unfold run, BatchController.deleteBatch, bind, query, ident, reject_if; simpl.
      rewrite Hfound. simpl. rewrite P. reflexivity.
    + intros Hnone.
      assert (P : (0 <? UserModel.count (UserModel.in_batch id) d) = false).
      { apply count_zero. intros u Hu.
        destruct (UserModel.in_batch id u) eqn:E; [|reflexivity].
        apply in_batch_spec in E. elim (Hnone u Hu E). }
      eexists. split.
      * unfold run, BatchController.deleteBatch, bind, query, ident, reject_if; simpl.
        rewrite Hfound. simpl. rewrite P. simpl. reflexivity.
      * rewrite Hid. unfold BatchModel.findByPk. simpl.
        split; [apply find_after_delete|]. split; reflexivity.
  - intros division Hfound.
    destruct (find_key _ _ _ _ Hfound) as [Hid _].
    split.
    + intros [u [Hu Hr]].
      exists (UserModel.count (UserModel.in_division id) d).
      assert (P : (0 <? UserModel.count (UserModel.in_division id) d) = true).
      { apply count_positive. exists u. split; [exact Hu|now apply in_division_spec]. }
      split; [now apply Z.ltb_lt|].
      unfold run, DivisionController.deleteDivision, bind, query, ident, reject_if; simpl.
      rewrite Hfound. simpl. rewrite P. reflexivity.
    + intros Hnone.
      assert (P : (0 <? UserModel.count (UserModel.in_division id) d) = false).
      { apply count_zero. intros u Hu.
        destruct (UserModel.in_division id u) eqn:E; [|reflexivity].
        apply in_division_spec in E. elim (Hnone u Hu E). }
      eexists. split.
      * unfold run, DivisionController.deleteDivision, bind, query, ident, reject_if; simpl.
        rewrite Hfound. simpl. rewrite P. simpl. reflexivity.
      * rewrite Hid. unfold DivisionModel.findByPk. simpl.
        split; [apply find_after_delete|]. split; reflexivity.
Qed.

Lemma delete_is_guarded_by_user_references_witness :
  (exists n, 0 < n /\
     run (BatchController.deleteBatch BatchController.imports 1) Sample.db
     = (Json 400 false (Message (CannotDeleteBatch n)), Sample.db))
  /\ (exists d',
        run (BatchController.deleteBatch BatchController.imports 3) Sample.db
        = (Json 200 true EmptyData, d')
        /\ BatchModel.findByPk 3 d' = None
        /\ Batches d' = filter (fun b => negb (batch_id b =? 3)) (Batches Sample.db)
        /\ Users d' = Users Sample.db)
  /\ (exists n, 0 < n /\
        run (DivisionController.deleteDivision DivisionController.imports 1) Sample.db
        = (Json 400 false (Message (CannotDeleteDivision n)), Sample.db))
  /\ (exists d',
        run (DivisionController.deleteDivision DivisionController.imports 2) Sample.db
        = (Json 200 true EmptyData, d')
        /\ DivisionModel.findByPk 2 d' = None
        /\ Divisions d' = filter (fun x => negb (division_id x =? 2)) (Divisions Sample.db)
        /\ Users d' = Users Sample.db).
Proof.
  split; [|split; [|split]].
  - apply (proj1 (proj1 (delete_is_guarded_by_user_references Sample.db 1)
                    (mkBatch 1 "2025 Cohort" 2025 true) eq_refl)).
    exists (mkUser 10 "Ali" santri (Some 1) (Some 1)). split; [simpl; auto|reflexivity].
  - apply (proj2 (proj1 (delete_is_guarded_by_user_references Sample.db 3)
                    (mkBatch 3 "Reserve" 2026 true) eq_refl)).
    unfold references_batch. simpl. intros u H.
    repeat (destruct H as [H|H]; [subst u; discriminate|]). destruct H.
  - apply (proj1 (proj2 (delete_is_guarded_by_user_references Sample.db 1)
                    (mkDivision 1 "Tahfidz" None true) eq_refl)).
    exists (mkUser 10 "Ali" santri (Some 1) (Some 1)). split; [simpl; auto|reflexivity].
  - apply (proj2 (proj2 (delete_is_guarded_by_user_references Sample.db 2)
                    (mkDivision 2 "Kitchen" None true) eq_refl)).
    unfold references_division. simpl. intros u H.
    repeat (destruct H as [H|H]; [subst u; discriminate|]). destruct H.
Defined.

(** ** Sessions *)

Lemma defaultRecords_one_per_user (sessionId : Z) (users : list User) :
  map AttendanceModel.v_userId (defaultRecords sessionId users) = map user_id users
  /\ Forall (fun v => AttendanceModel.v_sessionId v = sessionId
                      /\ AttendanceModel.v_status v = absent
                      /\ AttendanceModel.v_verifiedBy v = None
                      /\ AttendanceModel.v_verifiedAt v = None)
            (defaultRecords sessionId users).
Proof.
  unfold defaultRecords. split.
  - rewrite map_map. reflexivity.
  - apply Forall_forall. intros v Hv. apply in_map_iff in Hv.
    destruct Hv as [u [<- _]]. simpl. auto.
Qed.

(** C4, as the code behaves.  A createSession call that passes every
    check of the handler (well-formed date, existing session type,
    existing batch, no session with the same date, type and batch) hands
    [Session.create] a record without startTime, endTime and divisionId.
    The Session model declares the three columns [allowNull: false], so
    the insert is refused by the model validation: the handler ends in
    next(error), and neither the session nor any attendance row is
    created. *)
Theorem createSession_refused_by_session_model :
  forall (d : DB) (date : string) (sessionTypeId batchId : Z)
         (notes status : option string) (sessionType : SessionType) (batch : Batch),
    dateRegex_test date = true ->
    SessionTypeModel.findByPk (Some sessionTypeId) d = Some sessionType ->
    BatchModel.findByPk batchId d = Some batch ->
    (forall s, In s (Sessions d) ->
       ~ (session_date s = date /\ session_sessionTypeId s = sessionTypeId
          /\ session_batchId s = batchId)) ->
    run (SessionController.createSession SessionController.imports
           (SessionController.mkBody (Some date) (Some sessionTypeId) (Some batchId)
              notes status)) d
    = (NextError (SequelizeValidationError "Session"), d).
Proof.
  intros d date stid bid notes status sessionType batch Hdate Htype Hbatch Hfresh.
  apply wp_run with (P := fun out => out = (NextError (SequelizeValidationError "Session"), d)).
  unfold SessionController.createSession. simpl SessionController.date.
  simpl SessionController.sessionTypeId. simpl SessionController.batchId.
  wp_steps.
  - rewrite Hdate in *. discriminate.
  - rewrite Htype in *. discriminate.
  - unfold SessionController.batch_findByPk in *. rewrite Hbatch in *. discriminate.
  - match goal with
    | H : match SessionModel.findOne ?p d with _ => _ end = true |- _ =>
        destruct (SessionModel.findOne p d) as [s|] eqn:E; [clear H|discriminate H]
    end.
    apply find_some in E. destruct E as [Hin Hs]. simpl in Hs.
    apply andb_true_iff in Hs. destruct Hs as [Hs H3].
    apply andb_true_iff in Hs. destruct Hs as [H4 H5].
    apply String.eqb_eq in H4. apply Z.eqb_eq in H5. apply Z.eqb_eq in H3.
    elim (Hfresh s Hin). auto.
  - unfold SessionModel.create. wp_steps. simpl. wp_steps. reflexivity.
Qed.

(** Whatever the request and the store, createSession never answers
    with a success and never writes. *)
Lemma createSession_never_succeeds :
  forall (d : DB) (body : SessionController.Body),
    is_success (fst (run (SessionController.createSession
                            SessionController.imports body) d)) = false
    /\ snd (run (SessionController.createSession SessionController.imports body) d) = d.
Proof.
  intros d body.
  apply wp_run with (P := fun out => is_success (fst out) = false /\ snd out = d).
  unfold SessionController.createSession.
  wp_steps; try (split; reflexivity).
  unfold SessionModel.create. wp_steps. simpl.
  destruct (SessionController.date body); wp_steps; split; reflexivity.
Qed.

Lemma createSession_refused_by_session_model_witness :
  run (SessionController.createSession SessionController.imports
         (SessionController.mkBody (Some "2025-01-11") (Some 1) (Some 2) None None))
      Sample.db
  = (NextError (SequelizeValidationError "Session"), Sample.db).
Proof.
  apply (createSession_refused_by_session_model Sample.db "2025-01-11" 1 2 None None
           (mkSessionType 1 "Subuh") (mkBatch 2 "2026 Cohort" 2026 true));
    try reflexivity.
  intros s [Hs|[]] [_ [_ Hb]]. subst s. discriminate Hb.
Defined.

Ltac wp_case :=
  cbv beta zeta;
  lazymatch goal with
  | |- wp (if ?c then _ else _) _ _ _ => destruct c eqn:?
  | |- wp (match ?x with _ => _ end) _ _ _ => destruct x eqn:?
  end.

(** The test [batchId && batchId !== session.batchId] is made on the
    instance [session.update] resolved to, whose batchId already is the
    requested one: it never holds. *)
Lemma same_batch_after_update (v : option Z) (old : Z) :
  truthy_num v = true -> (defined_or v 0 =? num_or v old) = true.
Proof.
  destruct v as [n|]; simpl; [|discriminate].
  destruct (n =? 0); simpl; [discriminate|].
  intros _. apply Z.eqb_refl.
Qed.

Lemma updateSession_never_touches_attendance :
  forall (d : DB) (id : Z) (body : SessionController.Body),
    Attendances (snd (run (SessionController.updateSession
                             SessionController.imports id body) d))
    = Attendances d.
Proof.
  intros d id body.
  apply wp_run with (P := fun out => Attendances (snd out) = Attendances d).
  unfold SessionController.updateSession.
  repeat (first [wp_step | wp_case | progress unfold SessionModel.update]);
    try reflexivity;
    exfalso; simpl in *;
    match goal with
    | H : context [defined_or ?v 0 =? num_or ?v ?old] |- _ =>
        first [ rewrite (same_batch_after_update v old) in H by assumption;
                discriminate H
              | discriminate H ]
    | H : false = true |- _ => discriminate H
    end.
Qed.

(** C2, as the code behaves.  updateSession on an existing session with
    a batchId different from the session's current one: when the call
    succeeds the attendance table is exactly what it was before the call.
    The rows of the old batch are not deleted and none is created for the
    santri users of the new batch, because the handler compares the
    requested batchId with the session only after it has written the new
    batchId into it. *)
Theorem updateSession_batch_change_keeps_attendance :
  forall (d : DB) (id : Z) (body : SessionController.Body) (session : Session)
         (newBatchId : Z),
    SessionModel.findByPk id d = Some session ->
    SessionController.batchId body = Some newBatchId ->
    newBatchId <> session_batchId session ->
    is_success (fst (run (SessionController.updateSession
                            SessionController.imports id body) d)) = true ->
    Attendances (snd (run (SessionController.updateSession
                             SessionController.imports id body) d))
    = Attendances d.
Proof.
  intros d id body session newBatchId _ _ _ _.
  apply updateSession_never_touches_attendance.
Qed.

Lemma updateSession_batch_change_keeps_attendance_witness :
  let body := SessionController.mkBody None None (Some 2) None None in
  let out := run (SessionController.updateSession SessionController.imports 1 body)
               Sample.db in
  fst out = Json 200 true
              (SessionData (Some (mkSession 1 "2025-01-10" "05:00" "06:00" 1 2 1 scheduled)))
  /\ Attendances (snd out) = Sample.attendances
  /\ UserModel.findAll (SessionController.santri_of_batch 2) (snd out)
     = [mkUser 20 "Dewi" santri (Some 2) None]
  /\ AttendanceModel.findAll (fun a => att_userId a =? 20) (snd out) = [].
Proof.
  intros body out.
  assert (K : Attendances (snd out) = Attendances Sample.db).
  { apply (updateSession_batch_change_keeps_attendance Sample.db 1 body
             (mkSession 1 "2025-01-10" "05:00" "06:00" 1 1 1 scheduled) 2);
      [reflexivity|reflexivity|discriminate|reflexivity]. }
  split; [reflexivity|]. split; [exact K|]. split; reflexivity.
Defined.

(** ** Bulk update of attendance *)

Lemma with_Attendances_same (d : DB) : with_Attendances d (Attendances d) = d.
Proof. destruct d; reflexivity. Qed.

Lemma unique_key {A : Type} (key : A -> Z) (l : list A) (a x : A) :
  NoDup (map key l) -> In a l -> In x l -> key x = key a -> x = a.
Proof.
  induction l as [|y l IH]; simpl; intros Hnd Ha Hx Hk; [destruct Ha|].
  inversion Hnd as [|? ? Hnotin Hnd']; subst.
  destruct Ha as [Ha|Ha], Hx as [Hx|Hx]; subst.
  - reflexivity.
  - elim Hnotin. rewrite <- Hk. now apply in_map.
  - elim Hnotin. rewrite Hk. now apply in_map.
  - now apply IH.
Qed.

Lemma apply_item_keeps_id (sessionId user now : Z) (a : Attendance)
    (item : AttendanceController.Item) :
  att_id (apply_item sessionId user now a item) = att_id a
  /\ att_sessionId (apply_item sessionId user now a item) = att_sessionId a
  /\ att_userId (apply_item sessionId user now a item) = att_userId a.
Proof.
  unfold apply_item. destruct (AttendanceController.item_where sessionId item a); auto.
Qed.

Lemma apply_items_keeps_id (sessionId user now : Z)
    (data : list AttendanceController.Item) (a : Attendance) :
  att_id (apply_items sessionId user now data a) = att_id a
  /\ att_sessionId (apply_items sessionId user now data a) = att_sessionId a
  /\ att_userId (apply_items sessionId user now data a) = att_userId a.
Proof.
  unfold apply_items. revert a.
  induction data as [|item data IH]; intros a; simpl; [auto|].
  destruct (IH (apply_item sessionId user now a item)) as (H1 & H2 & H3).
  destruct (apply_item_keeps_id sessionId user now a item) as (K1 & K2 & K3).
  repeat split; congruence.
Qed.

(** One step of the update loop, on a table whose ids are distinct:
    looking the row up and updating it by primary key rewrites the table
    exactly as [apply_item] prescribes. *)
Lemma update_found_row (sessionId user now : Z) (item : AttendanceController.Item)
    (rows : list Attendance) (a : Attendance) :
  NoDup (map att_id rows) ->
  find (AttendanceController.item_where sessionId item) rows = Some a ->
  map (fun x => if att_id x =? att_id a
                then apply_item sessionId user now a item else x) rows
  = map (fun x => apply_item sessionId user now x item) rows.
Proof.
  intros Hnd Hfind. apply find_some in Hfind. destruct Hfind as [Hin Hw].
  apply map_ext_in. intros x Hx.
  destruct (att_id x =? att_id a) eqn:E.
  - apply Z.eqb_eq in E. now rewrite (unique_key att_id rows a x Hnd Hin Hx E).
  - unfold apply_item at 1.
    destruct (AttendanceController.item_where sessionId item x) eqn:Wx; [|reflexivity].
    unfold AttendanceController.item_where in Hw, Wx.
    destruct (AttendanceController.item_id item) as [i|]; [|discriminate].
    apply andb_true_iff in Hw. apply andb_true_iff in Wx.
    destruct Hw as [Hw _], Wx as [Wx _].
    apply Z.eqb_eq in Hw. apply Z.eqb_eq in Wx. apply Z.eqb_neq in E. congruence.
Qed.

Lemma update_missing_row (sessionId user now : Z) (item : AttendanceController.Item)
    (rows : list Attendance) :
  find (AttendanceController.item_where sessionId item) rows = None ->
  map (fun x => apply_item sessionId user now x item) rows = rows.
Proof.
  intros Hfind. rewrite <- (map_id rows) at 2. apply map_ext_in. intros x Hx.
  unfold apply_item. now rewrite (find_none _ _ Hfind x Hx).
Qed.

Lemma update_items_spec (sessionId user now : Z)
    (data : list AttendanceController.Item) :
  forall (d : DB) (updates : list Z),
    NoDup (map att_id (Attendances d)) ->
    exists updates',
      AttendanceController.update_items sessionId user now data updates d
      = Next updates'
          (with_Attendances d
             (map (apply_items sessionId user now data) (Attendances d))).
Proof.
  induction data as [|item data IH]; intros d updates Hnd.
  - exists updates. simpl. unfold ret, apply_items. simpl.
    now rewrite map_id, with_Attendances_same.
  - simpl. unfold bind at 1, query at 1, AttendanceModel.findOne.
    destruct (find (AttendanceController.item_where sessionId item) (Attendances d))
      as [a|] eqn:Hfind.
    + unfold bind at 1, AttendanceModel.update, bind at 1, exec, ret.
      set (d1 := with_Attendances d _).
      assert (E1 : Attendances d1
                   = map (fun x => apply_item sessionId user now x item) (Attendances d)).
      { subst d1. simpl. rewrite <- (update_found_row sessionId user now item _ a Hnd Hfind).
        apply map_ext. intros x. destruct (att_id x =? att_id a); [|reflexivity].
        unfold apply_item. apply find_some in Hfind. destruct Hfind as [_ Hw].
        now rewrite Hw. }
      assert (Hnd1 : NoDup (map att_id (Attendances d1))).
      { rewrite E1, map_map.
        erewrite map_ext; [exact Hnd|].
        intros x. apply apply_item_keeps_id. }
      destruct (IH d1 (updates ++ [att_id a])%list Hnd1) as [updates' Hrun].
      exists updates'. rewrite Hrun. f_equal.
      rewrite E1, map_map. subst d1. reflexivity.
    + destruct (IH d updates Hnd) as [updates' Hrun].
      exists updates'. rewrite Hrun. f_equal. f_equal.
      rewrite <- (update_missing_row sessionId user now item _ Hfind) at 1.
      rewrite map_map. reflexivity.
Qed.

Lemma validate_items_accepts (data : list AttendanceController.Item) (d : DB) :
  Forall (fun item => item_ok item = true) data ->
  AttendanceController.validate_items data d = Next tt d.
Proof.
  induction 1 as [|item data Hok _ IH]; [reflexivity|].
  simpl. unfold item_ok in Hok.
  apply andb_true_iff in Hok. destruct Hok as [Hok H3].
  apply andb_true_iff in Hok. destruct Hok as [H1 H2].
  unfold bind, reject_if. rewrite H1, H2, H3. simpl. exact IH.
Qed.

Lemma validate_items_rejects (data : list AttendanceController.Item) (d : DB) :
  Exists (fun item => item_ok item = false) data ->
  exists m, (m = ItemNeedsIdAndStatus \/ m = StatusOneOf)
            /\ AttendanceController.validate_items data d
               = Sent (Json 400 false (Message m)) d.
Proof.
  induction data as [|item data IH]; intros Hex; [inversion Hex|].
  simpl. unfold bind, reject_if.
  destruct (negb (truthy_num (AttendanceController.item_id item))
            || negb (truthy_str (AttendanceController.item_status item))) eqn:E1.
  { exists ItemNeedsIdAndStatus. auto. }
  simpl.
  destruct (negb (AttendanceController.valid_status
                    (AttendanceController.item_status item))) eqn:E2.
  { exists StatusOneOf. auto. }
  simpl. apply IH.
  inversion Hex as [? ? Hbad|]; subst; [|assumption].
  exfalso. unfold item_ok in Hbad.
  apply orb_false_iff in E1. destruct E1 as [A1 A2].
  apply negb_false_iff in A1, A2, E2. rewrite A1, A2, E2 in Hbad. discriminate.
Qed.

Lemma apply_items_miss (sessionId user now : Z)
    (data : list AttendanceController.Item) (a : Attendance) :
  (forall item, In item data ->
     AttendanceController.item_where sessionId item a = false) ->
  apply_items sessionId user now data a = a.
Proof.
  unfold apply_items. induction data as [|item data IH]; intros H; simpl; [reflexivity|].
  unfold apply_item at 2. rewrite (H item (or_introl eq_refl)).
  apply IH. intros i Hi. apply H. now right.
Qed.

Lemma item_where_stable (sessionId user now : Z) (item item' : AttendanceController.Item)
    (a : Attendance) :
  AttendanceController.item_where sessionId item (apply_item sessionId user now a item')
  = AttendanceController.item_where sessionId item a.
Proof.
  unfold AttendanceController.item_where.
  destruct (apply_item_keeps_id sessionId user now a item') as (-> & -> & _).
  reflexivity.
Qed.

Lemma apply_items_stamps (sessionId user now : Z)
    (data : list AttendanceController.Item) (a : Attendance) :
  (exists item, In item data
                /\ AttendanceController.item_where sessionId item a = true) ->
  att_verifiedBy (apply_items sessionId user now data a) = Some user
  /\ att_verifiedAt (apply_items sessionId user now data a) = Some now.
Proof.
  unfold apply_items. revert a.
  induction data as [|item data IH]; intros a [it [Hin Hw]]; [destruct Hin|].
  simpl.
  destruct (existsb (fun i => AttendanceController.item_where sessionId i a) data) eqn:E.
  - apply existsb_exists in E. destruct E as [i [Hi Hwi]].
    apply IH. exists i. split; [exact Hi|]. now rewrite item_where_stable.
  - assert (M : forall i, In i data ->
                  AttendanceController.item_where sessionId i
                    (apply_item sessionId user now a item) = false).
    { intros i Hi. rewrite item_where_stable.
      destruct (AttendanceController.item_where sessionId i a) eqn:W; [|reflexivity].
      assert (T : existsb (fun i => AttendanceController.item_where sessionId i a) data = true)
        by (apply existsb_exists; eauto).
      congruence. }
    pose proof (apply_items_miss sessionId user now data _ M) as K.
    unfold apply_items in K. rewrite K.
    destruct Hin as [->|Hin].
    + unfold apply_item. rewrite Hw. simpl. auto.
    + rewrite <- (item_where_stable sessionId user now it item) in Hw.
      rewrite (M it Hin) in Hw. discriminate.
Qed.

Lemma apply_items_last_status (sessionId user now : Z)
    (data1 data2 : list AttendanceController.Item) (item : AttendanceController.Item)
    (a : Attendance) (s : string) (st : AttStatus) :
  AttendanceController.item_where sessionId item a = true ->
  AttendanceController.item_status item = Some s ->
  AttendanceController.parse_status s = Some st ->
  (forall i, In i data2 -> AttendanceController.item_where sessionId i a = false) ->
  att_status (apply_items sessionId user now (data1 ++ item :: data2) a) = st.
Proof.
  intros Hw Hs Hp Hmiss. unfold apply_items. rewrite fold_left_app. simpl.
  fold (apply_items sessionId user now data1 a).
  set (a1 := apply_items sessionId user now data1 a).
  assert (W1 : forall i, AttendanceController.item_where sessionId i a1
                         = AttendanceController.item_where sessionId i a).
  { intros i. unfold AttendanceController.item_where, a1.
    destruct (apply_items_keeps_id sessionId user now data1 a) as (-> & -> & _).
    reflexivity. }
  fold (apply_items sessionId user now data2 (apply_item sessionId user now a1 item)).
  rewrite apply_items_miss.
  - unfold apply_item. rewrite W1, Hw. simpl. rewrite Hs. simpl. now rewrite Hp.
  - intros i Hi. rewrite item_where_stable, W1. now apply Hmiss.
Qed.

(** C7.  bulkUpdateAttendance with a non-empty array on an existing
    session, the attendance ids being distinct.  If some entry has no id,
    no status or a status outside the four, the call answers 400 and the
    store is unchanged.  Otherwise the call answers 200 and every
    attendance row is the old row with the entries applied in order, an
    entry touching a row only when the row has the entry's id and belongs
    to the session: rows of other sessions and rows no entry names are
    unchanged, a row an entry matches carries the caller as verifier and
    the time of the call together with the status of the last entry that
    names it, and an entry matching no row changes nothing. *)
Theorem bulkUpdateAttendance_validates_then_updates :
  forall (d : DB) (sessionId : Z) (data : list AttendanceController.Item)
         (user now : Z) (session : Session),
    data <> [] ->
    SessionModel.findByPk sessionId d = Some session ->
    NoDup (map att_id (Attendances d)) ->
    let call := AttendanceController.bulkUpdateAttendance AttendanceController.imports
                  sessionId data user now in
    (Exists (fun item => item_ok item = false) data ->
       exists m, (m = ItemNeedsIdAndStatus \/ m = StatusOneOf)
                 /\ run call d = (Json 400 false (Message m), d))
    /\
    (Forall (fun item => item_ok item = true) data ->
       (exists rows,
          run call d
          = (Json 200 true (AttendanceRows (Z.of_nat (List.length rows)) rows),
             with_Attendances d
               (map (apply_items sessionId user now data) (Attendances d))))
       /\ (forall a, att_sessionId a <> sessionId ->
              apply_items sessionId user now data a = a)
       /\ (forall a, (forall item, In item data ->
                        AttendanceController.item_id item <> Some (att_id a)) ->
              apply_items sessionId user now data a = a)
       /\ (forall a item, In item data -> att_sessionId a = sessionId ->
              AttendanceController.item_id item = Some (att_id a) ->
              att_verifiedBy (apply_items sessionId user now data a) = Some user
              /\ att_verifiedAt (apply_items sessionId user now data a) = Some now)
       /\ (forall a data1 item data2 s st,
              data = (data1 ++ item :: data2)%list ->
              att_sessionId a = sessionId ->
              AttendanceController.item_id item = Some (att_id a) ->
              (forall i, In i data2 ->
                 AttendanceController.item_id i <> Some (att_id a)) ->
              AttendanceController.item_status item = Some s ->
              AttendanceController.parse_status s = Some st ->
              att_status (apply_items sessionId user now data a) = st)).
Proof.
  intros d sessionId data user now session Hne Hsession Hnd call.
  assert (Hlen : (Z.of_nat (List.length data) =? 0) = false).
  { destruct data; [congruence|]. apply Z.eqb_neq. simpl. lia. }
  split.
  - intros Hbad.
    destruct (validate_items_rejects data d Hbad) as [m [Hm Hv]].
    exists m. split; [exact Hm|].
    apply wp_run with (P := fun out => out = (Json 400 false (Message m), d)).
    unfold call, AttendanceController.bulkUpdateAttendance. wp_steps.
    + congruence.
    + rewrite Hsession in *. discriminate.
    + eapply wp_sent; [exact Hv|reflexivity].
  - intros Hok. split; [|split; [|split; [|split]]].
    + destruct (update_items_spec sessionId user now data d [] Hnd) as [updates Hupd].
      set (d' := with_Attendances d
                   (map (apply_items sessionId user now data) (Attendances d))) in *.
      set (rows := AttendanceModel.findAll (fun a => includes updates (att_id a)) d').
      exists rows.
      apply wp_run with
        (P := fun out =>
                out = (Json 200 true (AttendanceRows (Z.of_nat (List.length rows)) rows), d')).
      unfold call, AttendanceController.bulkUpdateAttendance. wp_steps.
      * congruence.
      * rewrite Hsession in *. discriminate.
      * eapply wp_next; [apply (validate_items_accepts data d Hok)|].
        wp_steps.
        eapply wp_next; [exact Hupd|].
        wp_steps. reflexivity.
    + intros a Ha. apply apply_items_miss. intros item _.
      unfold AttendanceController.item_where.
      destruct (AttendanceController.item_id item); [|reflexivity].
      apply Z.eqb_neq in Ha. rewrite Ha. apply andb_false_r.
    + intros a Ha. apply apply_items_miss. intros item Hin.
      unfold AttendanceController.item_where.
      specialize (Ha item Hin).
      destruct (AttendanceController.item_id item) as [i|]; [|reflexivity].
      assert (E : (att_id a =? i) = false) by (apply Z.eqb_neq; congruence).
      now rewrite E.
    + intros a item Hin Hs Hid. apply apply_items_stamps.
      exists item. split; [exact Hin|].
      unfold AttendanceController.item_where. rewrite Hid, Hs, !Z.eqb_refl. reflexivity.
    + intros a data1 item data2 s st -> Hs Hid Hlater Hstatus Hparse.
      apply (apply_items_last_status sessionId user now data1 data2 item a s st);
        try assumption.
      * unfold AttendanceController.item_where.
        rewrite Hid, Hs, !Z.eqb_refl. reflexivity.
      * intros i Hi. unfold AttendanceController.item_where.
        specialize (Hlater i Hi).
        destruct (AttendanceController.item_id i) as [k|]; [|reflexivity].
        assert (E : (att_id a =? k) = false) by (apply Z.eqb_neq; congruence).
        now rewrite E.
Qed.

Lemma bulkUpdateAttendance_validates_then_updates_witness :
  let bad := [AttendanceController.mkItem (Some 1) (Some "sick") None] in
  let good := [AttendanceController.mkItem (Some 1) (Some "present") None;
               AttendanceController.mkItem (Some 99) (Some "late") None] in
  (exists m, (m = ItemNeedsIdAndStatus \/ m = StatusOneOf)
             /\ run (AttendanceController.bulkUpdateAttendance
                       AttendanceController.imports 1 bad 12 1000) Sample.db
                = (Json 400 false (Message m), Sample.db))
  /\ (exists rows,
        run (AttendanceController.bulkUpdateAttendance
               AttendanceController.imports 1 good 12 1000) Sample.db
        = (Json 200 true (AttendanceRows (Z.of_nat (List.length rows)) rows),
           with_Attendances Sample.db
             (map (apply_items 1 12 1000 good) (Attendances Sample.db))))
  /\ map (apply_items 1 12 1000 good) (Attendances Sample.db)
     = [ mkAttendance 1 1 10 present None None (Some 12) (Some 1000);
         mkAttendance 2 1 11 absent None None None None ].
Proof.
  intros bad good.
  assert (Hnd : NoDup (map att_id (Attendances Sample.db))).
  { simpl. repeat constructor; simpl; intuition discriminate. }
  split; [|split].
  - apply (proj1 (bulkUpdateAttendance_validates_then_updates Sample.db 1 bad 12 1000
                    (mkSession 1 "2025-01-10" "05:00" "06:00" 1 1 1 scheduled)
                    ltac:(discriminate) eq_refl Hnd)).
    constructor. reflexivity.
  - apply (proj2 (bulkUpdateAttendance_validates_then_updates Sample.db 1 good 12 1000
                    (mkSession 1 "2025-01-10" "05:00" "06:00" 1 1 1 scheduled)
                    ltac:(discriminate) eq_refl Hnd)).
    repeat constructor.
  - reflexivity.
Defined.

(** ** Generation of attendance rows *)

Lemma includes_spec (l : list Z) (x : Z) : includes l x = true <-> In x l.
Proof.
  unfold includes. rewrite existsb_exists. split.
  - intros [y [Hy E]]. apply Z.eqb_eq in E. now subst.
  - intros H. exists x. split; [exact H|apply Z.eqb_refl].
Qed.

Lemma filter_nil {A : Type} (f : A -> bool) (l : list A) :
  (forall x, In x l -> f x = false) -> filter f l = [].
Proof.
  intros H. destruct (filter f l) as [|x r] eqn:E; [reflexivity|].
  assert (Hx : In x (filter f l)) by (rewrite E; now left).
  apply filter_In in Hx. destruct Hx as [Hx Fx]. rewrite (H x Hx) in Fx. discriminate.
Qed.

(** A user with a row for the session is among the existing user ids. *)
Lemma existing_user (rows : list Attendance) (sessionId : Z) (ids : list Z) (u : Z) :
  In u ids ->
  (exists a, In a rows /\ att_sessionId a = sessionId /\ att_userId a = u) ->
  includes (map att_userId
              (filter (AttendanceController.existing_where sessionId ids) rows)) u = true.
Proof.
  intros Hu [a [Ha [Hs Hid]]]. apply includes_spec. apply in_map_iff.
  exists a. split; [exact Hid|]. apply filter_In. split; [exact Ha|].
  unfold AttendanceController.existing_where.
  rewrite Hs, Z.eqb_refl. simpl. apply includes_spec. now rewrite Hid.
Qed.

Lemma new_user (rows : list Attendance) (sessionId : Z) (ids : list Z) (u : Z) :
  In u ids ->
  includes (map att_userId
              (filter (AttendanceController.existing_where sessionId ids) rows)) u = false ->
  forall a, In a rows -> pair_of a <> (sessionId, u).
Proof.
  intros Hu Hnew a Ha E. unfold pair_of in E. inversion E as [[Hs Hid]].
  rewrite (existing_user rows sessionId ids u Hu) in Hnew; [discriminate|].
  exists a. auto.
Qed.

Lemma nothing_new {A : Type} (key : A -> Z) (l : list A) (ids : list Z)
    (rows : list Attendance) (sessionId : Z) :
  (forall x, In x l ->
     In (key x) ids
     /\ exists a, In a rows /\ att_sessionId a = sessionId /\ att_userId a = key x) ->
  filter (fun x => negb (includes
                           (map att_userId
                              (filter (AttendanceController.existing_where sessionId ids)
                                 rows)) (key x))) l = [].
Proof.
  intros H. apply filter_nil. intros x Hx. destruct (H x Hx) as [Hin Hrow].
  now rewrite (existing_user rows sessionId ids (key x) Hin Hrow).
Qed.

Lemma length_zero_test {A : Type} (l : list A) :
  (Z.of_nat (List.length l) =? 0) = false -> l <> [].
Proof. intros H ->. discriminate. Qed.

(** C10.  When every targeted user already has an attendance row for the
    session, createAttendanceRecords and generateAttendanceForBatch answer
    with an error, never with a success, and leave the store as it was. *)
Theorem full_overlap_is_rejected :
  forall (d : DB) (sessionId : Z) (defaultStatus : option string) (user now : Z),
    (forall (userIds : list Z),
       (forall u, In u userIds -> has_row d sessionId u) ->
       let out := run (AttendanceController.createAttendanceRecords
                         AttendanceController.imports sessionId userIds
                         defaultStatus user now) d in
       is_success (fst out) = false /\ snd out = d)
    /\
    (forall (lower : bool),
       (forall u, In u (targets d sessionId) -> has_row d sessionId (user_id u)) ->
       let out := run (AttendanceController.generateAttendanceForBatch
                         AttendanceController.imports lower sessionId
                         defaultStatus user now) d in
       is_success (fst out) = false /\ snd out = d).
Proof.
  intros d sessionId defaultStatus user now. split.
  - intros userIds Hall out. subst out.
    apply wp_run with (P := fun out => is_success (fst out) = false /\ snd out = d).
    unfold AttendanceController.createAttendanceRecords.
    wp_steps; try (split; reflexivity).
    exfalso.
    match goal with
    | H : (Z.of_nat (List.length ?l) =? 0) = false |- _ =>
        apply length_zero_test in H; apply H
    end.
    unfold AttendanceModel.findAll.
    apply (nothing_new (fun x => x) userIds userIds (Attendances d) sessionId).
    intros u Hu. split; [exact Hu|apply (Hall u Hu)].
  - intros lower Hall out. subst out.
    apply wp_run with (P := fun out => is_success (fst out) = false /\ snd out = d).
    unfold AttendanceController.generateAttendanceForBatch, targets in *.
    wp_steps. wp_case; [|wp_steps; split; reflexivity].
    wp_steps; try (split; reflexivity).
    wp_case.
    + unfold AttendanceController.session_batch_name. wp_steps.
      wp_case; wp_steps; split; reflexivity.
    + wp_steps; try (split; reflexivity).
      exfalso.
      match goal with
      | H : (Z.of_nat (List.length ?l) =? 0) = false |- _ =>
          apply length_zero_test in H; apply H
      end.
      unfold AttendanceModel.findAll.
      apply (nothing_new user_id _ _ (Attendances d) sessionId).
      intros u Hu. split; [now apply in_map|apply (Hall u Hu)].
Qed.

Lemma full_overlap_is_rejected_witness :
  (let out := run (AttendanceController.createAttendanceRecords
                     AttendanceController.imports 1 [10; 11] None 12 1000) Sample.db in
   fst out = Json 400 false (Message AllSpecifiedHaveRecords)
   /\ is_success (fst out) = false /\ snd out = Sample.db)
  /\
  (let out := run (AttendanceController.generateAttendanceForBatch
                     AttendanceController.imports false 1 None 12 1000) Sample.db in
   fst out = Json 400 false (Message AllInBatchHaveRecords)
   /\ is_success (fst out) = false /\ snd out = Sample.db).
Proof.
  assert (R10 : has_row Sample.db 1 10).
  { exists (mkAttendance 1 1 10 absent None None None None). simpl. auto. }
  assert (R11 : has_row Sample.db 1 11).
  { exists (mkAttendance 2 1 11 absent None None None None). simpl. auto. }
  split.
  - split; [reflexivity|].
    apply (proj1 (full_overlap_is_rejected Sample.db 1 None 12 1000) [10; 11]).
    intros u [<-|[<-|[]]]; assumption.
  - split; [reflexivity|].
    apply (proj2 (full_overlap_is_rejected Sample.db 1 None 12 1000) false).
    intros u [<-|[<-|[]]]; assumption.
Defined.

Lemma pairs_of_new_rows (next_id sessionId : Z) (st : AttStatus) (notes : option string)
    (user now : Z) (ids : list Z) :
  map pair_of (AttendanceModel.assign_ids next_id
                 (AttendanceController.newRecords sessionId st notes user now ids))
  = map (fun u => (sessionId, u)) ids.
Proof.
  revert next_id. induction ids as [|u ids IH]; intros next_id; simpl; [reflexivity|].
  now rewrite IH.
Qed.

Lemma NoDup_map_filter {A : Type} (key : A -> Z) (f : A -> bool) (l : list A) :
  NoDup (map key l) -> NoDup (map key (filter f l)).
Proof.
  induction l as [|x l IH]; simpl; intros H; [constructor|].
  inversion H as [|? ? Hnotin Hnd]; subst.
  destruct (f x); simpl; [|auto].
  constructor; [|auto].
  intros Hin. apply Hnotin. apply in_map_iff in Hin. destruct Hin as [y [Hy Hin]].
  apply filter_In in Hin. rewrite <- Hy. apply in_map. tauto.
Qed.

(** Appending rows for distinct users none of whom has a row for the
    session keeps the pairs distinct. *)
Lemma new_rows_keep_unique (rows : list Attendance) (next_id sessionId : Z)
    (st : AttStatus) (notes : option string) (user now : Z) (ids : list Z) :
  unique_pairs rows ->
  NoDup ids ->
  (forall u, In u ids -> forall a, In a rows -> pair_of a <> (sessionId, u)) ->
  unique_pairs (rows ++ AttendanceModel.assign_ids next_id
                          (AttendanceController.newRecords sessionId st notes user now ids)).
Proof.
  unfold unique_pairs. intros Hrows Hids Hfresh.
  rewrite map_app, pairs_of_new_rows. apply NoDup_app.
  - exact Hrows.
  - apply NoDup_map_NoDup_ForallPairs; [|exact Hids].
    intros x y _ _ E. now inversion E.
  - intros p Hp Hq. apply in_map_iff in Hp. destruct Hp as [a [Ea Ha]].
    apply in_map_iff in Hq. destruct Hq as [u [Eu Hu]].
    apply (Hfresh u Hu a Ha). congruence.
Qed.

(** createAttendanceRecords keeps the pairs distinct when the request
    names no user twice. *)
Lemma createAttendanceRecords_keeps_unique_pairs :
  forall (d : DB) (sessionId : Z) (userIds : list Z) (defaultStatus : option string)
         (user now : Z),
    unique_pairs (Attendances d) ->
    NoDup userIds ->
    unique_pairs (Attendances (snd (run (AttendanceController.createAttendanceRecords
                                           AttendanceController.imports sessionId userIds
                                           defaultStatus user now) d))).
Proof.
  intros d sessionId userIds defaultStatus user now Huniq Hnd.
  apply wp_run with (P := fun out => unique_pairs (Attendances (snd out))).
  unfold AttendanceController.createAttendanceRecords.
  wp_steps; try exact Huniq.
  unfold AttendanceModel.bulkCreate. wp_steps. simpl.
  apply new_rows_keep_unique; [exact Huniq|now apply NoDup_filter|].
  intros u Hu. apply filter_In in Hu. destruct Hu as [Hu Hnew].
  apply negb_true_iff in Hnew.
  exact (new_user (Attendances d) sessionId userIds u Hu Hnew).
Qed.

(** generateAttendanceForBatch keeps the pairs distinct: its user set
    comes from the users table, whose ids are distinct. *)
Lemma generateAttendanceForBatch_keeps_unique_pairs :
  forall (d : DB) (lower : bool) (sessionId : Z) (defaultStatus : option string)
         (user now : Z),
    unique_pairs (Attendances d) ->
    NoDup (map user_id (Users d)) ->
    unique_pairs (Attendances (snd (run (AttendanceController.generateAttendanceForBatch
                                           AttendanceController.imports lower sessionId
                                           defaultStatus user now) d))).
Proof.
  intros d lower sessionId defaultStatus user now Huniq Hnd.
  apply wp_run with (P := fun out => unique_pairs (Attendances (snd out))).
  unfold AttendanceController.generateAttendanceForBatch.
  wp_steps. wp_case; [|wp_steps; exact Huniq].
  wp_steps; try exact Huniq.
  wp_case.
  - unfold AttendanceController.session_batch_name. wp_steps.
    wp_case; wp_steps; exact Huniq.
  - wp_steps; try exact Huniq.
    unfold AttendanceModel.bulkCreate. wp_steps.
    assert (K : unique_pairs
                  (Attendances d ++
                   AttendanceModel.assign_ids (fresh_id (map att_id (Attendances d)))
                     (AttendanceController.newRecords sessionId
                        (AttendanceController.status_value
                           (Some (str_or defaultStatus "absent")) absent)
                        None user now
                        (map user_id
                           (filter (fun u => negb (includes
                              (map att_userId
                                 (AttendanceModel.findAll
                                    (AttendanceController.existing_where sessionId
                                       (map user_id
                                          (UserModel.findAll
                                             (SessionController.santri_of_batch
                                                (session_batchId s)) d))) d))
                              (user_id u)))
                              (UserModel.findAll
                                 (SessionController.santri_of_batch (session_batchId s))
                                 d)))))).
    { apply new_rows_keep_unique; [exact Huniq| |].
      - apply NoDup_map_filter. unfold UserModel.findAll. now apply NoDup_map_filter.
      - intros u Hu. apply in_map_iff in Hu. destruct Hu as [x [<- Hx]].
        apply filter_In in Hx. destruct Hx as [Hx Hnew].
        apply negb_true_iff in Hnew.
        refine (new_user (Attendances d) sessionId _ (user_id x) _ Hnew).
        now apply in_map. }
    unfold AttendanceController.session_batch_name. wp_steps.
    wp_case; wp_steps; exact K.
Qed.

(** C5, as the code behaves.  createAttendanceRecords filters out the
    users that already have a row but does not look for a user named
    twice in the request.  On a store whose (sessionId, userId) pairs are
    distinct, the request [20, 20] for session 1 succeeds and inserts two
    rows for user 20: the pairs are no longer distinct. *)
Theorem createAttendanceRecords_repeated_user_duplicates_row :
  let out := run (AttendanceController.createAttendanceRecords
                    AttendanceController.imports 1 [20; 20] None 12 1000) Sample.db in
  unique_pairs (Attendances Sample.db)
  /\ is_success (fst out) = true
  /\ Attendances (snd out)
     = (Attendances Sample.db
        ++ [ mkAttendance 3 1 20 absent None None (Some 12) (Some 1000);
             mkAttendance 4 1 20 absent None None (Some 12) (Some 1000) ])%list
  /\ ~ unique_pairs (Attendances (snd out)).
Proof.
  intros out. split; [|split; [|split]].
  - unfold unique_pairs. simpl. repeat constructor; simpl; intuition discriminate.
  - reflexivity.
  - reflexivity.
  - unfold unique_pairs. intros H.
    change (map pair_of (Attendances (snd out)))
      with [(1, 10); (1, 11); (1, 20); (1, 20)] in H.
    apply NoDup_cons_iff in H. destruct H as [_ H].
    apply NoDup_cons_iff in H. destruct H as [_ H].
    apply NoDup_cons_iff in H. destruct H as [H _].
    apply H. now left.
Qed.

(** ** Filtered bulk create and update *)

(** C1, as the code behaves.  bulkCreateUpdateFilteredAttendance with an
    existing session, a non-empty userIds list and a valid status prepares
    its updates and inserts in memory and then evaluates
    [sequelize.transaction]; the attendance controller never binds
    [sequelize], so a ReferenceError is raised before any write, the
    handler ends in next(error) and the store is unchanged: no listed
    user's row receives the status. *)
Theorem bulkCreateUpdateFilteredAttendance_never_writes :
  forall (d : DB) (sessionId : Z) (userIds : list Z) (status : option string)
         (notes : option (option string)) (user now : Z) (session : Session),
    userIds <> [] ->
    SessionModel.findByPk sessionId d = Some session ->
    AttendanceController.valid_status status = true ->
    run (AttendanceController.bulkCreateUpdateFilteredAttendance
           AttendanceController.imports sessionId userIds status notes user now) d
    = (NextError (ReferenceError "sequelize"), d).
Proof.
  intros d sessionId userIds status notes user now session Hne Hsession Hstatus.
  apply wp_run with (P := fun out => out = (NextError (ReferenceError "sequelize"), d)).
  unfold AttendanceController.bulkCreateUpdateFilteredAttendance.
  wp_steps.
  - destruct userIds; [congruence|discriminate].
  - rewrite Hsession in *. discriminate.
  - rewrite Hstatus in *. discriminate.
  - reflexivity.
Qed.

Lemma bulkCreateUpdateFilteredAttendance_never_writes_witness :
  run (AttendanceController.bulkCreateUpdateFilteredAttendance
         AttendanceController.imports 1 [10; 20] (Some "present") None 12 1000) Sample.db
  = (NextError (ReferenceError "sequelize"), Sample.db).
Proof.
  apply (bulkCreateUpdateFilteredAttendance_never_writes Sample.db 1 [10; 20]
           (Some "present") None 12 1000
           (mkSession 1 "2025-01-10" "05:00" "06:00" 1 1 1 scheduled));
    [discriminate|reflexivity|reflexivity].
Defined.

(** In a scope that binds [sequelize] the same call goes through: the
    row of user 10 is updated and a row is inserted for user 20, both
    inside the transaction. *)
Example bulkCreateUpdateFilteredAttendance_with_sequelize_bound :
  run (AttendanceController.bulkCreateUpdateFilteredAttendance
         ("sequelize" :: AttendanceController.imports) 1 [10; 20] (Some "present")
         None 12 1000) Sample.db
  = (Json 200 true (Counts 1 1 2 (UpdatedAndCreated 1 1)),
     with_Attendances Sample.db
       [ mkAttendance 1 1 10 present None None (Some 12) (Some 1000);
         mkAttendance 2 1 11 absent None None None None;
         mkAttendance 3 1 20 present None None (Some 12) (Some 1000) ]).
Proof. reflexivity. Qed.

(** ** Statistics and reports *)

Lemma session_matches_spec (startDate endDate : option string) (batchId : option Z)
    (s : Session) :
  AttendanceController.session_matches
    (AttendanceController.sessionWhereClause startDate endDate batchId None) s
  = in_filter startDate endDate batchId s.
Proof.
  unfold AttendanceController.session_matches, AttendanceController.sessionWhereClause,
    in_filter. simpl.
  destruct startDate as [lo|], endDate as [hi|]; simpl;
    repeat match goal with
           | |- context [String.eqb ?x ""] => destruct (String.eqb x ""); simpl
           end;
    rewrite ?andb_true_r; reflexivity.
Qed.



Lemma length_insert_sorted {A : Type} (leb : A -> A -> bool) (x : A) (l : list A) :
  List.length (insert_sorted A leb x l) = S (List.length l).
Proof.
  induction l as [|y l IH]; simpl; [reflexivity|].
  destruct (leb x y); simpl; [reflexivity|now rewrite IH].
Qed.

Lemma length_order_by {A : Type} (leb : A -> A -> bool) (l : list A) :
  List.length (order_by leb l) = List.length l.
Proof.
  induction l as [|x l IH]; simpl; [reflexivity|].
  now rewrite length_insert_sorted, IH.
Qed.

Lemma includes_map {A : Type} (key : A -> Z) (l : list A) (x : Z) :
  includes (map key l) x = existsb (fun y => key y =? x) l.
Proof.
  unfold includes. induction l as [|y l IH]; simpl; [reflexivity|].
  now rewrite IH, Z.eqb_sym.
Qed.

Lemma filter_and {A : Type} (f g : A -> bool) (l : list A) :
  filter (fun a => f a && g a) l = filter g (filter f l).
Proof.
  induction l as [|x l IH]; simpl; [reflexivity|].
  destruct (f x); simpl; [destruct (g x)|]; now rewrite IH.
Qed.





Lemma count_in_sessions (ss : list Session) (d : DB) :
  AttendanceModel.count (AttendanceController.in_sessions (map session_id ss)) d
  = total (rows_of ss d).
Proof.
  unfold AttendanceModel.count, total, rows_of. f_equal. f_equal.
  apply filter_ext. intros a. apply includes_map.
Qed.

Lemma count_in_sessions_with_status (ss : list Session) (st : AttStatus) (d : DB) :
  AttendanceModel.count
    (fun a => AttendanceController.in_sessions (map session_id ss) a
              && AttendanceController.has_status st a) d
  = status_count st (rows_of ss d).
Proof.
  unfold AttendanceModel.count, status_count, rows_of. f_equal. f_equal.
  rewrite filter_and. f_equal.
  apply filter_ext. intros a. apply includes_map.
Qed.

(** What getAttendanceStats answers, in the vocabulary of the
    specification. *)
Lemma getAttendanceStats_run (scope : list string) (d : DB)
    (startDate endDate : option string) (batchId : option Z) :
  forallb (bound scope) AttendanceController.imports = true ->
  let ss := matching_sessions startDate endDate batchId d in
  let rows := rows_of ss d in
  run (AttendanceController.getAttendanceStats scope startDate endDate batchId) d
  = (match ss with
     | [] => Json 200 true (Stats (mkStats 0 0 (mkCounts 0 0 0 0) 0%Q))
     | _ :: _ =>
         Json 200 true
           (Stats (mkStats (Z.of_nat (List.length ss)) (total rows)
                     (mkCounts (status_count present rows) (status_count absent rows)
                        (status_count late rows) (status_count excused rows))
                     (toFixed2 (rate_of (status_count present rows
                                         + status_count late rows) (total rows)))))
     end, d).
Proof.
  intros Hscope ss rows. subst rows.
  simpl in Hscope.
  repeat (apply andb_true_iff in Hscope; destruct Hscope as [? Hscope]).
  assert (Efound : SessionModel.findAll
                     (AttendanceController.session_matches
                        (AttendanceController.sessionWhereClause
                           startDate endDate batchId None)) d = ss).
  { unfold SessionModel.findAll, ss, matching_sessions.
    apply filter_ext. intros s. apply session_matches_spec. }
  apply wp_run with (P := fun out => out = (_, d)).
  unfold AttendanceController.getAttendanceStats.
  wp_step. wp_case.
  - wp_steps; rewrite Efound in *.
    + destruct ss; [reflexivity|discriminate].
    + destruct ss as [|s0 ss0]; [discriminate|].
      rewrite !count_in_sessions_with_status, count_in_sessions. reflexivity.
  - wp_steps; rewrite Efound in *.
    + destruct ss; [reflexivity|discriminate].
    + destruct ss as [|s0 ss0]; [discriminate|].
      rewrite !count_in_sessions_with_status, count_in_sessions. reflexivity.
Qed.








(** The store [Sample.mixed] is reachable: its row for the staff user 12
    is the row createAttendanceRecords inserts for the request [12]. *)
Example mixed_is_reachable :
  snd (run (AttendanceController.createAttendanceRecords AttendanceController.imports
              1 [12] None 12 1000)
         (with_Attendances Sample.mixed
            [mkAttendance 1 1 10 present None None (Some 12) (Some 1000)]))
  = Sample.mixed.
Proof. reflexivity. Qed.




(** * Properties of the remaining handlers *)

Lemma wp_finish (P : reply * DB -> Prop) (h : handler reply) (d : DB) :
  wp h (fun r d' => P (r, d')) (fun r d' => P (reply_of r, d')) d ->
  P (finish h d).
Proof. unfold wp, finish. destruct (h d); auto. Qed.

Ltac wp_go := repeat (first [wp_step | wp_case]); cbv beta zeta.



Lemma find_app_old {A : Type} (p : A -> bool) (l : list A) (x y : A) :
  find p l = Some y -> find p (l ++ [x]) = Some y.
Proof.
  induction l as [|z l IH]; simpl; [discriminate|].
  destruct (p z); [auto|exact IH].
Qed.

(** ** Batches *)

Lemma no_batch_with_key (l : list Batch) (name : string) (year : Z) :
  find (fun x => String.eqb (batch_name x) name && (batch_year x =? year)) l = None ->
  ~ In (name, year) (map batch_key l).
Proof.
  intros Hnone Hin. apply in_map_iff in Hin. destruct Hin as [b [Hk Hb]].
  pose proof (find_none _ _ Hnone b Hb) as F. simpl in F.
  unfold batch_key in Hk. inversion Hk; subst.
  now rewrite String.eqb_refl, Z.eqb_refl in F.
Qed.

(** X1.  createBatch keeps the batches free of two rows with the same
    name and year, whatever the request. *)
Theorem createBatch_keeps_unique_keys :
  forall (d : DB) (body : BatchController.Body),
    unique_batch_keys (Batches d) ->
    unique_batch_keys
      (Batches (snd (finish (Batches.createBatch BatchController.imports body) d))).
Proof.
  intros d body Huniq.
  apply wp_finish with (P := fun out => unique_batch_keys (Batches (snd out))).
  unfold Batches.createBatch, Batches.create.
  wp_go; try exact Huniq.
  simpl. unfold unique_batch_keys. rewrite map_app. simpl.
  apply NoDup_app; [exact Huniq|repeat constructor; intros []|].
  intros k Hk [<-|[]].
  match goal with
  | H : BatchModel.findOne _ d = None |- _ => exact (no_batch_with_key _ _ _ H Hk)
  end.
Qed.

Ltac distinct := repeat constructor; simpl; intuition discriminate.

Lemma createBatch_keeps_unique_keys_witness :
  unique_batch_keys
    (Batches (snd (finish (Batches.createBatch BatchController.imports
                             (BatchController.mkBody (Some "2027 Cohort") (Some 2027) None))
                     Sample.db))).
Proof.
  apply (createBatch_keeps_unique_keys Sample.db).
  unfold unique_batch_keys. simpl. distinct.
Defined.



(** X3.  createBatch does not answer 400 to a year outside 2000..2100 or
    to an empty name: when no batch has the requested name and year, the
    insert is refused by the model validation, the request ends in
    next(error) and nothing is written. *)
Theorem createBatch_invalid_values_internal_error :
  forall (d : DB) (name : string) (year : Z) (active : option bool),
    name = "" \/ year < 2000 \/ 2100 < year ->
    (forall b, In b (Batches d) -> batch_key b <> (name, year)) ->
    finish (Batches.createBatch BatchController.imports
              (BatchController.mkBody (Some name) (Some year) active)) d
    = (Raised (Js (SequelizeValidationError "Batch")), d).
Proof.
  intros d name year active Hbad Hfresh.
  assert (Hnone : BatchModel.findOne
                    (fun x => String.eqb (batch_name x) name && (batch_year x =? year)) d
                  = None).
  { unfold BatchModel.findOne.
    destruct (find _ (Batches d)) as [x|] eqn:E; [|reflexivity].
    apply find_some in E. destruct E as [Hx Hk]. apply andb_true_iff in Hk.
    destruct Hk as [H1 H2]. apply String.eqb_eq in H1. apply Z.eqb_eq in H2.
    elim (Hfresh x Hx). unfold batch_key. congruence. }
  apply wp_finish with
    (P := fun out => out = (Raised (Js (SequelizeValidationError "Batch")), d)).
  unfold Batches.createBatch, Batches.create. simpl.
  wp_steps. rewrite Hnone. wp_steps.
  assert (Hinvalid : BatchModel.valid
                       (mkBatch (fresh_id (map batch_id (Batches d))) name year
                          (defined_or active true)) = false).
  { unfold BatchModel.valid. simpl.
    destruct Hbad as [->|[H|H]].
    - reflexivity.
    - assert (E : (2000 <=? year) = false) by (apply Z.leb_gt; lia).
      rewrite E. now rewrite andb_false_r.
    - assert (E : (year <=? 2100) = false) by (apply Z.leb_gt; lia).
      rewrite E. now rewrite andb_false_r. }
  rewrite Hinvalid. wp_steps. reflexivity.
Qed.

Lemma createBatch_invalid_values_internal_error_witness :
  finish (Batches.createBatch BatchController.imports
            (BatchController.mkBody (Some "1999 Cohort") (Some 1999) None)) Sample.db
  = (Raised (Js (SequelizeValidationError "Batch")), Sample.db).
Proof.
  apply (createBatch_invalid_values_internal_error Sample.db "1999 Cohort" 1999 None).
  - right. left. lia.
  - simpl. intros x H. repeat (destruct H as [<-|H]; [discriminate|]). destruct H.
Defined.

Lemma not_NoDup_map {A B : Type} (g : A -> B) (l : list A) (x y : A) :
  In x l -> In y l -> x <> y -> g x = g y -> ~ NoDup (map g l).
Proof.
  induction l as [|z l IH]; simpl; intros Hx Hy Hne Hg Hnd; [destruct Hx|].
  inversion Hnd as [|? ? Hnotin Hnd']; subst.
  destruct Hx as [->|Hx], Hy as [->|Hy].
  - now apply Hne.
  - apply Hnotin. rewrite Hg. now apply in_map.
  - apply Hnotin. rewrite <- Hg. now apply in_map.
  - exact (IH Hx Hy Hne Hg Hnd').
Qed.

(** X4.  updateBatch looks for a duplicate only when the body has both a
    name and a year.  A body with a name and no year renames the batch
    even when another batch already has that name in the same year: the
    call is answered 200 and the batches then hold two rows with the same
    name and year. *)
Theorem updateBatch_rename_skips_duplicate_check :
  forall (d : DB) (id : Z) (n : string) (active : option bool) (b other : Batch),
    BatchModel.findByPk id d = Some b ->
    n <> "" ->
    2000 <= batch_year b <= 2100 ->
    In other (Batches d) ->
    batch_id other <> id ->
    batch_name other = n ->
    batch_year other = batch_year b ->
    let out := run (BatchController.updateBatch BatchController.imports id
                      (BatchController.mkBody (Some n) None active)) d in
    fst out = Json 200 true
                (BatchData (mkBatch id n (batch_year b)
                              (defined_or active (batch_isActive b))))
    /\ ~ unique_batch_keys (Batches (snd out)).
Proof.
  intros d id n active b other Hfound Hn Hyear Hother Hid Hname Hsame out.
  destruct (find_key _ _ _ _ Hfound) as [Hbid Hb].
  set (b' := mkBatch id n (batch_year b) (defined_or active (batch_isActive b))).
  assert (Hout : out = (Json 200 true (BatchData b'),
                        with_Batches d
                          (map (fun x => if batch_id x =? id then b' else x)
                             (Batches d)))).
  { unfold out.
    apply wp_run with (P := fun o => o = (_, _)).
    unfold BatchController.updateBatch. wp_steps. rewrite Hfound. simpl.
    apply String.eqb_neq in Hn. rewrite Hn. simpl.
    wp_steps. unfold BatchModel.update, BatchModel.valid. simpl.
    rewrite Hn. simpl.
    assert (E1 : (2000 <=? batch_year b) = true) by (apply Z.leb_le; lia).
    assert (E2 : (batch_year b <=? 2100) = true) by (apply Z.leb_le; lia).
    rewrite E1, E2. simpl. wp_steps. rewrite Hbid. reflexivity. }
  rewrite Hout. split; [reflexivity|].
  unfold unique_batch_keys. simpl. rewrite map_map.
  apply (not_NoDup_map _ (Batches d) b other Hb Hother).
  - intros ->. now apply Hid.
  - rewrite <- Hbid, Z.eqb_refl.
    assert (E : (batch_id other =? batch_id b) = false)
      by (apply Z.eqb_neq; congruence).
    rewrite E. unfold batch_key. simpl. congruence.
Qed.

Lemma updateBatch_rename_skips_duplicate_check_witness :
  let out := run (BatchController.updateBatch BatchController.imports 3
                    (BatchController.mkBody (Some "2026 Cohort") None None)) Sample.db in
  unique_batch_keys (Batches Sample.db)
  /\ fst out = Json 200 true (BatchData (mkBatch 3 "2026 Cohort" 2026 true))
  /\ ~ unique_batch_keys (Batches (snd out)).
Proof.
  intros out. split; [unfold unique_batch_keys; simpl; distinct|].
  apply (updateBatch_rename_skips_duplicate_check Sample.db 3 "2026 Cohort" None
           (mkBatch 3 "Reserve" 2026 true) (mkBatch 2 "2026 Cohort" 2026 true)).
  - reflexivity.
  - discriminate.
  - simpl. lia.
  - simpl. auto.
  - discriminate.
  - reflexivity.
  - reflexivity.
Defined.

(** ** Divisions *)

(** Replacing the row of key [key x] by [x'] keeps the values of [g]
    distinct when no other row has the value [g x']. *)
Lemma replace_keeps_NoDup {A B : Type} (key : A -> Z) (g : A -> B) (l : list A) (x x' : A) :
  NoDup (map key l) ->
  NoDup (map g l) ->
  In x l ->
  (forall y, In y l -> key y <> key x -> g y <> g x') ->
  NoDup (map g (map (fun y => if key y =? key x then x' else y) l)).
Proof.
  intros Hkeys. revert x. induction l as [|z l IH]; intros x Hg Hx Hother; [constructor|].
  simpl in *. inversion Hkeys as [|? ? Kz Kl]; subst.
  inversion Hg as [|? ? Gz Gl]; subst.
  destruct Hx as [->|Hx].
  - rewrite Z.eqb_refl. constructor.
    + intros Hin. rewrite map_map in Hin. apply in_map_iff in Hin.
      destruct Hin as [y [Ey Hy]].
      assert (Ny : key y <> key x).
      { intros E. apply Kz. rewrite <- E. now apply in_map. }
      apply Z.eqb_neq in Ny. rewrite Ny in Ey.
      apply Z.eqb_neq in Ny. exact (Hother y (or_intror Hy) Ny Ey).
    + rewrite map_map. erewrite map_ext_in; [exact Gl|].
      intros y Hy. simpl.
      assert (Ny : (key y =? key x) = false).
      { apply Z.eqb_neq. intros E. apply Kz. rewrite <- E. now apply in_map. }
      now rewrite Ny.
  - assert (Nz : (key z =? key x) = false).
    { apply Z.eqb_neq. intros E. apply Kz. rewrite E. now apply in_map. }
    rewrite Nz. constructor.
    + intros Hin. rewrite map_map in Hin. apply in_map_iff in Hin.
      destruct Hin as [y [Ey Hy]].
      destruct (key y =? key x) eqn:Ky.
      * apply Z.eqb_neq in Nz. exact (Hother z (or_introl eq_refl) Nz (eq_sym Ey)).
      * apply Gz. rewrite <- Ey. now apply in_map.
    + apply IH; auto.
Qed.

Lemma unique_by {A B : Type} (g : A -> B) (l : list A) (a x : A) :
  NoDup (map g l) -> In a l -> In x l -> g x = g a -> x = a.
Proof.
  induction l as [|y l IH]; simpl; intros Hnd Ha Hx Hg; [destruct Ha|].
  inversion Hnd as [|? ? Hnotin Hnd']; subst.
  destruct Ha as [Ha|Ha], Hx as [Hx|Hx]; subst.
  - reflexivity.
  - elim Hnotin. rewrite <- Hg. now apply in_map.
  - elim Hnotin. rewrite Hg. now apply in_map.
  - now apply IH.
Qed.

Lemma no_division_named (l : list Division) (n : string) :
  find (fun x => String.eqb (division_name x) n) l = None -> ~ In n (map division_name l).
Proof.
  intros Hnone Hin. apply in_map_iff in Hin. destruct Hin as [x [Hn Hx]].
  pose proof (find_none _ _ Hnone x Hx) as F. simpl in F.
  rewrite Hn, String.eqb_refl in F. discriminate.
Qed.

(** X5.  createDivision and updateDivision keep the division names
    distinct, the division ids being distinct. *)
Theorem divisions_keep_unique_names :
  forall (d : DB) (id : Z) (body : Divisions.Body),
    unique_division_names (Divisions d) ->
    NoDup (map division_id (Divisions d)) ->
    unique_division_names
      (Divisions (snd (finish (Divisions.createDivision DivisionController.imports body) d)))
    /\ unique_division_names
         (Divisions (snd (finish (Divisions.updateDivision DivisionController.imports
                                    id body) d))).
Proof.
  intros d id body Huniq Hids. split.
  - apply wp_finish with (P := fun out => unique_division_names (Divisions (snd out))).
    unfold Divisions.createDivision, Divisions.create.
    wp_go; try exact Huniq.
    simpl. unfold unique_division_names. rewrite map_app. simpl.
    apply NoDup_app; [exact Huniq|repeat constructor; intros []|].
    intros k Hk [<-|[]].
    match goal with
    | H : Divisions.findOne _ d = None |- _ => exact (no_division_named _ _ H Hk)
    end.
  - apply wp_finish with (P := fun out => unique_division_names (Divisions (snd out))).
    unfold Divisions.updateDivision, Divisions.update.
    wp_go; try exact Huniq.
    + (* the name changes and no other division has it *)
      simpl. unfold unique_division_names.
      match goal with
      | H : DivisionModel.findByPk id d = Some ?x |- _ =>
          destruct (find_key _ _ _ _ H) as [Kx Hx];
          apply (replace_keeps_NoDup division_id division_name _ x); auto
      end.
      intros y Hy Ny. simpl.
      match goal with
      | H : Divisions.findOne _ d = None |- _ =>
          pose proof (find_none _ _ H y Hy) as F
      end.
      simpl in F. rewrite Kx in Ny. apply Z.eqb_neq in Ny. rewrite Ny in F. simpl in F.
      apply String.eqb_neq in F.
      match goal with
      | H : truthy_str (Divisions.name body) && _ = true |- _ =>
          apply andb_true_iff in H; destruct H as [T _]
      end.
      unfold str_or, truthy_str, defined_or in *.
      destruct (Divisions.name body) as [n|]; [|discriminate].
      destruct (String.eqb n ""); [discriminate|]. exact F.
    + (* the name stays *)
      simpl. unfold unique_division_names.
      match goal with
      | H : DivisionModel.findByPk id d = Some ?x |- _ =>
          destruct (find_key _ _ _ _ H) as [Kx Hx];
          apply (replace_keeps_NoDup division_id division_name _ x); auto
      end.
      intros y Hy Ny. simpl.
      match goal with
      | H : truthy_str (Divisions.name body) && _ = false |- _ => rename H into T
      end.
      match goal with
      | H : DivisionModel.findByPk id d = Some ?x |- _ =>
          assert (E : str_or (Divisions.name body) (division_name x) = division_name x);
          [|rewrite E; intros Eg; apply Ny; apply (f_equal division_id);
            apply (unique_by division_name (Divisions d)); auto]
      end.
      unfold str_or, truthy_str, defined_or in *.
      destruct (Divisions.name body) as [n|]; [|reflexivity].
      destruct (String.eqb n "") eqn:En; [reflexivity|]. simpl in T.
      apply negb_false_iff in T. now apply String.eqb_eq in T.
Qed.

Lemma divisions_keep_unique_names_witness :
  let body := Divisions.mkBody (Some "Media") None None in
  unique_division_names
    (Divisions (snd (finish (Divisions.createDivision DivisionController.imports body)
                       Sample.db)))
  /\ unique_division_names
       (Divisions (snd (finish (Divisions.updateDivision DivisionController.imports 2 body)
                          Sample.db)))
  /\ map division_name
       (Divisions (snd (finish (Divisions.updateDivision DivisionController.imports 2 body)
                          Sample.db)))
     = ["Tahfidz"; "Media"].
Proof.
  intros body.
  destruct (divisions_keep_unique_names Sample.db 2 body) as [H1 H2].
  - unfold unique_division_names. simpl. distinct.
  - simpl. distinct.
  - split; [exact H1|]. split; [exact H2|reflexivity].
Defined.

(** ** Sessions *)

Lemma falsy_keeps_str (v : option string) (old : string) :
  truthy_str v = false -> str_or v old = old.
Proof.
  unfold truthy_str, str_or. destruct v as [s|]; [|reflexivity].
  destruct (String.eqb s ""); [reflexivity|discriminate].
Qed.

Lemma falsy_keeps_num (v : option Z) (old : Z) :
  truthy_num v = false -> num_or v old = old.
Proof.
  unfold truthy_num, num_or. destruct v as [n|]; [|reflexivity].
  destruct (n =? 0); [reflexivity|discriminate].
Qed.

(** X6.  updateSession keeps the sessions free of two rows with the same
    date, session type and batch, the session ids being distinct. *)
Theorem updateSession_keeps_unique_keys :
  forall (d : DB) (id : Z) (body : SessionController.Body),
    unique_session_keys (Sessions d) ->
    NoDup (map session_id (Sessions d)) ->
    unique_session_keys
      (Sessions (snd (run (SessionController.updateSession SessionController.imports
                             id body) d))).
Proof.
  intros d id body Huniq Hids.
  apply wp_run with (P := fun out => unique_session_keys (Sessions (snd out))).
  unfold SessionController.updateSession.
  wp_steps. wp_case; [|wp_steps; exact Huniq].
  match goal with
  | H : SessionModel.findByPk id d = Some ?x |- _ =>
      destruct (find_key _ _ _ _ H) as [Kx Hx]
  end.
  repeat (first [wp_step | wp_case | progress unfold SessionModel.update,
                                        AttendanceModel.destroy, AttendanceModel.bulkCreate]);
    try exact Huniq; simpl;
    unfold unique_session_keys;
    apply (replace_keeps_NoDup session_id session_key _ s); auto;
    intros y Hy Ny; unfold session_key; simpl.
  all: try match goal with
       | H : match SessionModel.findOne ?p ?st with _ => _ end = false,
         Hy : In ?y (Sessions ?st), Ny : session_id ?y <> _,
         Kx : session_id _ = _ |- _ =>
           destruct (SessionModel.findOne p st) eqn:F; [discriminate H|];
           pose proof (find_none _ _ F y Hy) as G; simpl in G;
           rewrite Kx in Ny; apply Z.eqb_neq in Ny; rewrite Ny in G; simpl in G;
           intros E; inversion E as [[E1 E2 E3]];
           rewrite E1, E2, E3, String.eqb_refl, !Z.eqb_refl in G; discriminate G
       end.
  all: match goal with
       | Hy : In ?y (Sessions ?st), Ny : session_id ?y <> _
         |- context [str_or (SessionController.date ?b) _] =>
           assert (T : truthy_str (SessionController.date b) = false
                       /\ truthy_num (SessionController.sessionTypeId b) = false
                       /\ truthy_num (SessionController.batchId b) = false)
             by (destruct (truthy_str (SessionController.date b)) eqn:?,
                          (truthy_num (SessionController.sessionTypeId b)) eqn:?,
                          (truthy_num (SessionController.batchId b)) eqn:?;
                 simpl in *; repeat split; congruence);
           destruct T as (T1 & T2 & T3);
           rewrite (falsy_keeps_str _ _ T1), (falsy_keeps_num _ _ T2),
             (falsy_keeps_num _ _ T3);
           intros E; apply Ny; apply (f_equal session_id);
           apply (unique_by session_key (Sessions st)); auto
       end.
Qed.

Lemma updateSession_keeps_unique_keys_witness :
  unique_session_keys
    (Sessions (snd (run (SessionController.updateSession SessionController.imports 1
                           (SessionController.mkBody (Some "2025-02-01") None (Some 2)
                              None None)) Sample.db))).
Proof.
  apply (updateSession_keeps_unique_keys Sample.db 1).
  - unfold unique_session_keys. simpl. distinct.
  - simpl. distinct.
Defined.

Lemma replace_by_itself {A : Type} (key : A -> Z) (l : list A) (x : A) :
  NoDup (map key l) -> In x l ->
  map (fun y => if key y =? key x then x else y) l = l.
Proof.
  intros Hnd Hx. rewrite <- (map_id l) at 2. apply map_ext_in. intros y Hy.
  destruct (key y =? key x) eqn:E; [|reflexivity].
  apply Z.eqb_eq in E. symmetry. exact (unique_key key l x y Hnd Hx Hy E).
Qed.

(** X7.  updateSession with an empty body on an existing session whose
    stored date is a date answers 200 with the session and leaves the
    whole store as it was, the session ids being distinct. *)
Theorem updateSession_empty_body_changes_nothing :
  forall (d : DB) (id : Z) (session : Session),
    SessionModel.findByPk id d = Some session ->
    isDate (session_date session) = true ->
    NoDup (map session_id (Sessions d)) ->
    run (SessionController.updateSession SessionController.imports id
           (SessionController.mkBody None None None None None)) d
    = (Json 200 true (SessionData (Some session)), d).
Proof.
  intros d id session Hfound Hdate Hids.
  destruct (find_key _ _ _ _ Hfound) as [Hid Hin].
  assert (Heta : mkSession (session_id session) (session_date session)
                   (session_startTime session) (session_endTime session)
                   (session_sessionTypeId session) (session_batchId session)
                   (session_divisionId session) (session_status session) = session)
    by (destruct session; reflexivity).
  apply wp_run with (P := fun out => out = (Json 200 true (SessionData (Some session)), d)).
  unfold SessionController.updateSession. wp_steps. rewrite Hfound. simpl.
  wp_steps; try discriminate.
  unfold SessionModel.update. simpl. rewrite Hdate.
  wp_steps. simpl. wp_steps. rewrite Heta.
  rewrite (replace_by_itself session_id (Sessions d) session Hids Hin).
  replace (with_Sessions d (Sessions d)) with d by (destruct d; reflexivity).
  rewrite Hid, Hfound. reflexivity.
Qed.

Lemma updateSession_empty_body_changes_nothing_witness :
  run (SessionController.updateSession SessionController.imports 1
         (SessionController.mkBody None None None None None)) Sample.db
  = (Json 200 true
       (SessionData (Some (mkSession 1 "2025-01-10" "05:00" "06:00" 1 1 1 scheduled))),
     Sample.db).
Proof.
  apply (updateSession_empty_body_changes_nothing Sample.db 1).
  - reflexivity.
  - reflexivity.
  - simpl. distinct.
Defined.

(** X8.  deleteSession on an existing session answers 200 and removes the
    attendance rows of the session together with the session: afterwards
    no attendance row refers to the session, the rows of the other
    sessions and the other sessions are kept in order, and getSession on
    the same id answers 404. *)
Theorem deleteSession_removes_session_and_its_rows :
  forall (d : DB) (id : Z) (session : Session),
    SessionModel.findByPk id d = Some session ->
    exists d',
      finish (Sessions.deleteSession SessionController.imports id) d
      = (Answer 200 true (Known EmptyData), d')
      /\ Attendances d' = filter (fun a => negb (att_sessionId a =? id)) (Attendances d)
      /\ Sessions d' = filter (fun s => negb (session_id s =? id)) (Sessions d)
      /\ (forall a, In a (Attendances d') -> att_sessionId a <> id)
      /\ Users d' = Users d /\ Batches d' = Batches d
      /\ finish (Sessions.getSession SessionController.imports id) d'
         = (Answer 404 false (Known (Message (SessionNotFound id))), d').
Proof.
  intros d id session Hfound.
  destruct (find_key _ _ _ _ Hfound) as [Hid _].
  set (d' := with_Sessions
               (with_Attendances d
                  (filter (fun a => negb (att_sessionId a =? id)) (Attendances d)))
               (filter (fun s => negb (session_id s =? id)) (Sessions d))).
  exists d'. split; [|split; [|split; [|split; [|split; [|split]]]]]; try reflexivity.
  - apply wp_finish with (P := fun out => out = (Answer 200 true (Known EmptyData), d')).
    unfold Sessions.deleteSession. wp_steps. rewrite Hfound.
    unfold AttendanceModel.destroy, Sessions.destroy. wp_steps.
    rewrite Hid. reflexivity.
  - intros a Ha. simpl in Ha. apply filter_In in Ha. destruct Ha as [_ Ha].
    apply negb_true_iff in Ha. now apply Z.eqb_neq.
  - apply wp_finish with (P := fun out => out = (_, d')).
    unfold Sessions.getSession. wp_steps.
    assert (F : SessionModel.findByPk id d' = None).
    { unfold SessionModel.findByPk, d'. simpl. apply find_after_delete. }
    rewrite F. wp_steps. reflexivity.
Qed.

Lemma deleteSession_removes_session_and_its_rows_witness :
  exists d',
    finish (Sessions.deleteSession SessionController.imports 1) Sample.db
    = (Answer 200 true (Known EmptyData), d')
    /\ Attendances d' = [] /\ Sessions d' = [].
Proof.
  destruct (deleteSession_removes_session_and_its_rows Sample.db 1
              (mkSession 1 "2025-01-10" "05:00" "06:00" 1 1 1 scheduled) eq_refl)
    as [d' (H1 & H2 & H3 & _)].
  exists d'. split; [exact H1|]. split; [rewrite H2|rewrite H3]; reflexivity.
Defined.

(** ** Attendance rows *)

Lemma find_after_replace {A : Type} (key : A -> Z) (id : Z) (l : list A) (a a' : A) :
  find (fun x => key x =? id) l = Some a ->
  key a' = id ->
  find (fun x => key x =? id) (map (fun x => if key x =? id then a' else x) l) = Some a'.
Proof.
  intros Hfind Hkey. induction l as [|x l IH]; simpl in *; [discriminate|].
  destruct (key x =? id) eqn:E.
  - rewrite Hkey, Z.eqb_refl. reflexivity.
  - rewrite E. now apply IH.
Qed.

Lemma updateAttendance_run (d : DB) (id : Z) (status : option string)
    (notes : option (option string)) (user now : Z) :
  finish (AttendanceRows.updateAttendance AttendanceController.imports id status notes
            user now) d
  = match AttendanceRows.findByPk id d with
    | None => (Answer 404 false (Notice (AttendanceNotFound id)), d)
    | Some a =>
        if AttendanceController.valid_status status then
          let a' := updated_row a (AttendanceController.status_value status (att_status a))
                      notes user now in
          (Answer 200 true (AttendanceData (Some a')),
           with_Attendances d
             (map (fun x => if att_id x =? id then a' else x) (Attendances d)))
        else (Answer 400 false (Known (Message StatusOneOf)), d)
    end.
Proof.
  apply wp_finish with (P := fun out => out = _).
  unfold AttendanceRows.updateAttendance. wp_steps.
  destruct (AttendanceRows.findByPk id d) as [a|] eqn:Hfound; [|wp_steps; reflexivity].
  destruct (find_key _ _ _ _ Hfound) as [Hid _].
  destruct (AttendanceController.valid_status status); simpl; [|wp_steps; reflexivity].
  subst id.
  unfold AttendanceModel.update. wp_steps. simpl att_id.
  unfold AttendanceRows.findByPk in *. simpl Attendances. unfold updated_row.
  erewrite (find_after_replace att_id (att_id a) (Attendances d) a);
    [reflexivity|exact Hfound|reflexivity].
Qed.

(** X9.  updateAttendance looks the row up before it looks at the status:
    an unknown id is answered 404 whatever the status, a status outside
    the four is answered 400, and in both cases nothing is written.  With
    a valid status the call is answered 200 with the row as rewritten:
    the new status, the caller as verifier, the time of the call, and the
    old notes when the body has none; every row with another id is
    kept. *)
Theorem updateAttendance_rewrites_one_row :
  forall (d : DB) (id : Z) (status : option string) (notes : option (option string))
         (user now : Z),
    let out := finish (AttendanceRows.updateAttendance AttendanceController.imports id
                         status notes user now) d in
    (AttendanceRows.findByPk id d = None ->
       out = (Answer 404 false (Notice (AttendanceNotFound id)), d))
    /\ (forall a, AttendanceRows.findByPk id d = Some a ->
          AttendanceController.valid_status status = false ->
          out = (Answer 400 false (Known (Message StatusOneOf)), d))
    /\ (forall a s st, AttendanceRows.findByPk id d = Some a ->
          status = Some s -> AttendanceController.parse_status s = Some st ->
          fst out = Answer 200 true (AttendanceData (Some (updated_row a st notes user now)))
          /\ Attendances (snd out)
             = map (fun x => if att_id x =? id then updated_row a st notes user now else x)
                 (Attendances d)
          /\ (notes = None -> att_notes (updated_row a st notes user now) = att_notes a)).
Proof.
  intros d id status notes user now out.
  unfold out. rewrite updateAttendance_run.
  split; [|split].
  - intros ->. reflexivity.
  - intros a -> ->. reflexivity.
  - intros a s st -> -> Hp.
    unfold AttendanceController.valid_status, AttendanceController.status_value.
    rewrite Hp. simpl. split; [reflexivity|]. split; [reflexivity|].
    intros ->. reflexivity.
Qed.

Lemma updateAttendance_rewrites_one_row_witness :
  finish (AttendanceRows.updateAttendance AttendanceController.imports 99 (Some "sick")
            None 12 1000) Sample.db
  = (Answer 404 false (Notice (AttendanceNotFound 99)), Sample.db)
  /\ finish (AttendanceRows.updateAttendance AttendanceController.imports 1 (Some "sick")
               None 12 1000) Sample.db
     = (Answer 400 false (Known (Message StatusOneOf)), Sample.db)
  /\ Attendances (snd (finish (AttendanceRows.updateAttendance AttendanceController.imports
                                 2 (Some "late") None 12 1000) Sample.db))
     = [ mkAttendance 1 1 10 absent None None None None;
         mkAttendance 2 1 11 late None None (Some 12) (Some 1000) ].
Proof.
  split; [|split].
  - apply (updateAttendance_rewrites_one_row Sample.db 99 (Some "sick") None 12 1000).
    reflexivity.
  - apply (proj1 (proj2 (updateAttendance_rewrites_one_row Sample.db 1 (Some "sick")
                           None 12 1000))
             (mkAttendance 1 1 10 absent None None None None)); reflexivity.
  - destruct (proj2 (proj2 (updateAttendance_rewrites_one_row Sample.db 2 (Some "late")
                              None 12 1000))
                (mkAttendance 2 1 11 absent None None None None) "late" late
                eq_refl eq_refl eq_refl) as (_ & H & _).
    rewrite H. reflexivity.
Defined.

Lemma bulkUpdateAttendance_store (d : DB) (sessionId : Z)
    (data : list AttendanceController.Item) (user now : Z) (session : Session) :
  data <> [] ->
  SessionModel.findByPk sessionId d = Some session ->
  NoDup (map att_id (Attendances d)) ->
  Forall (fun item => item_ok item = true) data ->
  snd (run (AttendanceController.bulkUpdateAttendance AttendanceController.imports
              sessionId data user now) d)
  = with_Attendances d (map (apply_items sessionId user now data) (Attendances d)).
Proof.
  intros Hne Hsession Hnd Hok.
  destruct (update_items_spec sessionId user now data d [] Hnd) as [updates Hupd].
  apply wp_run with (P := fun out => snd out = _).
  unfold AttendanceController.bulkUpdateAttendance. wp_steps.
  - destruct data; [congruence|discriminate].
  - rewrite Hsession in *. discriminate.
  - eapply wp_next; [apply (validate_items_accepts data d Hok)|].
    wp_steps. eapply wp_next; [exact Hupd|]. wp_steps. reflexivity.
Qed.

(** X10.  On a row that exists, with a non-zero id, a session that exists
    and a valid status, updateAttendance leaves the store exactly as
    bulkUpdateAttendance called on the session of the row with that one
    entry, the attendance ids being distinct. *)
Theorem updateAttendance_is_bulkUpdateAttendance_of_one_entry :
  forall (d : DB) (id : Z) (s : string) (st : AttStatus) (notes : option (option string))
         (user now : Z) (a : Attendance) (session : Session),
    NoDup (map att_id (Attendances d)) ->
    AttendanceRows.findByPk id d = Some a ->
    id <> 0 ->
    SessionModel.findByPk (att_sessionId a) d = Some session ->
    AttendanceController.parse_status s = Some st ->
    snd (finish (AttendanceRows.updateAttendance AttendanceController.imports id
                   (Some s) notes user now) d)
    = snd (run (AttendanceController.bulkUpdateAttendance AttendanceController.imports
                  (att_sessionId a) [AttendanceController.mkItem (Some id) (Some s) notes]
                  user now) d).
Proof.
  intros d id s st notes user now a session Hnd Hfound Hid Hsession Hp.
  destruct (find_key _ _ _ _ Hfound) as [Ka Hin].
  assert (Hs : String.eqb s "" = false).
  { destruct (String.eqb s "") eqn:E; [|reflexivity].
    apply String.eqb_eq in E. subst s. discriminate Hp. }
  rewrite (bulkUpdateAttendance_store d (att_sessionId a) _ user now session);
    [|discriminate|exact Hsession|exact Hnd|].
  - rewrite updateAttendance_run, Hfound.
    unfold AttendanceController.valid_status. rewrite Hp. simpl. f_equal.
    apply map_ext_in. intros x Hx.
    unfold apply_items, apply_item, AttendanceController.item_where. simpl.
    destruct (att_id x =? id) eqn:E; simpl; [|reflexivity].
    apply Z.eqb_eq in E. rewrite <- Ka in E.
    rewrite (unique_key att_id _ a x Hnd Hin Hx E).
    rewrite Z.eqb_refl. unfold updated_row. simpl. rewrite Hp. reflexivity.
  - constructor; [|constructor]. unfold item_ok. simpl.
    apply Z.eqb_neq in Hid. rewrite Hid, Hs. simpl.
    unfold AttendanceController.valid_status. now rewrite Hp.
Qed.

Lemma updateAttendance_is_bulkUpdateAttendance_of_one_entry_witness :
  snd (finish (AttendanceRows.updateAttendance AttendanceController.imports 2
                 (Some "late") None 12 1000) Sample.db)
  = snd (run (AttendanceController.bulkUpdateAttendance AttendanceController.imports
                1 [AttendanceController.mkItem (Some 2) (Some "late") None]
                12 1000) Sample.db).
Proof.
  apply (updateAttendance_is_bulkUpdateAttendance_of_one_entry Sample.db 2 "late" late
           None 12 1000 (mkAttendance 2 1 11 absent None None None None)
           (mkSession 1 "2025-01-10" "05:00" "06:00" 1 1 1 scheduled)).
  - simpl. distinct.
  - reflexivity.
  - discriminate.
  - reflexivity.
  - reflexivity.
Defined.

(** X11.  getUsersForAttendance answers 404 for an unknown session and,
    for every session that exists, ends in next(error): the user query
    names [Division], which the attendance controller does not bind.  No
    call returns a list of users, and none writes. *)
Theorem getUsersForAttendance_never_lists_users :
  forall (d : DB) (sessionId : Z) (batchId divisionId : option Z),
    finish (AttendanceRows.getUsersForAttendance AttendanceController.imports
              sessionId batchId divisionId) d
    = (match SessionModel.findByPk sessionId d with
       | Some _ => Raised (Js (ReferenceError "Division"))
       | None => Answer 404 false (Known (Message (SessionNotFound sessionId)))
       end, d).
Proof.
  intros d sessionId batchId divisionId.
  apply wp_finish with (P := fun out => out = _).
  unfold AttendanceRows.getUsersForAttendance. wp_steps.
  destruct (SessionModel.findByPk sessionId d); wp_steps; reflexivity.
Qed.

(** X12.  getAttendanceReports, as the attendance controller binds its
    names: when no session matches the filters the answer is 200 with no
    session and empty statistics; as soon as one session matches, the
    user query names [Division], which is not bound, and the request ends
    in next(error).  No call returns statistics, and none writes. *)
Theorem getAttendanceReports_never_returns_statistics :
  forall (d : DB) (lower : bool) (startDate endDate : option string)
         (batchId divisionId sessionTypeId : option Z),
    run (AttendanceController.getAttendanceReports AttendanceController.imports lower
           startDate endDate batchId divisionId sessionTypeId) d
    = (match SessionModel.findAll
               (AttendanceController.session_matches
                  (AttendanceController.sessionWhereClause startDate endDate batchId
                     sessionTypeId)) d with
       | [] => Json 200 true (Report (Some NoSessionsFound) [] None)
       | _ :: _ => NextError (ReferenceError "Division")
       end, d).
Proof.
  intros d lower startDate endDate batchId divisionId sessionTypeId.
  apply wp_run with (P := fun out => out = _).
  unfold AttendanceController.getAttendanceReports.
  wp_step. wp_case; wp_steps.
  all: rewrite ?length_order_by in *.
  all: match goal with
       | |- context [match ?l with [] => _ | _ :: _ => _ end] =>
           first [ destruct l; [reflexivity|discriminate]
                 | destruct l; [discriminate|reflexivity] ]
       end.
Qed.

Lemma status_counts_sum (rows : list Attendance) :
  status_count present rows + status_count absent rows
  + status_count late rows + status_count excused rows = total rows.
Proof.
  unfold status_count, total.
  induction rows as [|a rows IH]; [reflexivity|].
  cbn -[Z.of_nat]. destruct (att_status a); cbn -[Z.of_nat];
    rewrite !Nat2Z.inj_succ; lia.
Qed.

Lemma status_count_nonneg (st : AttStatus) (rows : list Attendance) :
  0 <= status_count st rows.
Proof. unfold status_count. lia. Qed.

Lemma rate_of_bounds (hits all : Z) :
  0 <= hits <= all -> (0 <= rate_of hits all /\ rate_of hits all <= 100 # 1)%Q.
Proof.
  intros H. unfold rate_of. destruct (0 <? all) eqn:E.
  - apply Z.ltb_lt in E.
    assert (N : ~ (inject_Z all == 0)%Q).
    { intros K. unfold Qeq in K. simpl in K. lia. }
    assert (P : (0 < inject_Z all)%Q) by (unfold Qlt; simpl; lia).
    assert (L : (0 <= inject_Z hits / inject_Z all)%Q).
    { apply Qle_shift_div_l; [exact P|]. rewrite Qmult_0_l.
      change 0%Q with (inject_Z 0). rewrite <- Zle_Qle. lia. }
    assert (U : (inject_Z hits / inject_Z all <= 1)%Q).
    { apply Qle_shift_div_r; [exact P|]. rewrite Qmult_1_l.
      rewrite <- Zle_Qle. lia. }
    change (inject_Z 100) with (100 # 1)%Q. split; lra.
  - split; unfold Qle; simpl; lia.
Qed.

Lemma toFixed2_bounds (x : Q) :
  (0 <= x)%Q -> (x <= 100 # 1)%Q -> (0 <= toFixed2 x /\ toFixed2 x <= 100 # 1)%Q.
Proof.
  intros L U. unfold toFixed2.
  assert (N0 : 0 <= Qfloor (x * inject_Z 100 + (1 # 2))).
  { change 0 with (Qfloor (1 # 2)). apply Qfloor_resp_le.
    change (inject_Z 100) with (100 # 1)%Q. lra. }
  assert (N1 : Qfloor (x * inject_Z 100 + (1 # 2)) <= 10000).
  { change 10000 with (Qfloor (20001 # 2)). apply Qfloor_resp_le.
    change (inject_Z 100) with (100 # 1)%Q. lra. }
  set (n := Qfloor (x * inject_Z 100 + (1 # 2))) in *.
  split; unfold Qle, Qdiv, Qmult, Qinv; simpl; lia.
Qed.

(** X13.  getAttendanceStats always answers 200 and never writes; in its
    answer the four status counts add up to the total number of records
    and the attendance rate lies between 0 and 100. *)
Theorem getAttendanceStats_counts_add_up :
  forall (d : DB) (startDate endDate : option string) (batchId : option Z),
    exists s,
      run (AttendanceController.getAttendanceStats AttendanceController.imports
             startDate endDate batchId) d
      = (Json 200 true (Stats s), d)
      /\ n_present (statusCounts s) + n_absent (statusCounts s)
         + n_late (statusCounts s) + n_excused (statusCounts s)
         = totalAttendanceRecords s
      /\ (0 <= attendanceRate s)%Q /\ (attendanceRate s <= 100 # 1)%Q.
Proof.
  intros d startDate endDate batchId.
  pose proof (getAttendanceStats_run AttendanceController.imports d
                startDate endDate batchId eq_refl) as Hrun.
  cbv zeta in Hrun.
  set (rows := rows_of (matching_sessions startDate endDate batchId d) d) in *.
  destruct (matching_sessions startDate endDate batchId d) as [|s0 ss0].
  - eexists. split; [exact Hrun|]. simpl. split; [reflexivity|].
    split; unfold Qle; simpl; lia.
  - eexists. split; [exact Hrun|]. simpl. split; [apply status_counts_sum|].
    apply toFixed2_bounds; apply rate_of_bounds.
    + pose proof (status_counts_sum rows).
      pose proof (status_count_nonneg present rows).
      pose proof (status_count_nonneg absent rows).
      pose proof (status_count_nonneg late rows).
      pose proof (status_count_nonneg excused rows). lia.
    + pose proof (status_counts_sum rows).
      pose proof (status_count_nonneg present rows).
      pose proof (status_count_nonneg absent rows).
      pose proof (status_count_nonneg late rows).
      pose proof (status_count_nonneg excused rows). lia.
Qed.

Lemma new_rows_facts (next_id sessionId : Z) (st : AttStatus) (notes : option string)
    (user now : Z) (ids : list Z) :
  Forall (fun a => att_sessionId a = sessionId /\ In (att_userId a) ids
                   /\ att_status a = st
                   /\ att_verifiedBy a = Some user /\ att_verifiedAt a = Some now)
    (AttendanceModel.assign_ids next_id
       (AttendanceController.newRecords sessionId st notes user now ids)).
Proof.
  revert next_id. induction ids as [|u ids IH]; intros next_id; simpl; constructor.
  - simpl. auto 10.
  - eapply Forall_impl; [|apply IH]. simpl. intros a (H1 & H2 & H3). auto 10.
Qed.

Lemma new_rows_cover (next_id sessionId : Z) (st : AttStatus) (notes : option string)
    (user now : Z) (ids : list Z) (u : Z) :
  In u ids ->
  exists a, In a (AttendanceModel.assign_ids next_id
                    (AttendanceController.newRecords sessionId st notes user now ids))
            /\ att_sessionId a = sessionId /\ att_userId a = u.
Proof.
  revert next_id. induction ids as [|v ids IH]; intros next_id Hu; [destruct Hu|].
  simpl. destruct Hu as [->|Hu].
  - eexists. split; [left; reflexivity|]. simpl. auto.
  - destruct (IH (next_id + 1) Hu) as [a [Ha Hrest]]. exists a. split; [now right|exact Hrest].
Qed.

(** X14.  createAttendanceRecords only appends: whatever the request, the
    attendance rows that existed are kept as they were and in their
    order, and every row added belongs to the session, to a user named in
    the request that had no row for the session, and carries the caller
    as verifier and the time of the call.  No other table is written. *)
Theorem createAttendanceRecords_only_appends :
  forall (d : DB) (sessionId : Z) (userIds : list Z) (defaultStatus : option string)
         (user now : Z),
    exists rows,
      snd (run (AttendanceController.createAttendanceRecords AttendanceController.imports
                  sessionId userIds defaultStatus user now) d)
      = with_Attendances d (Attendances d ++ rows)
      /\ Forall (fun a => att_sessionId a = sessionId
                          /\ In (att_userId a) userIds
                          /\ ~ has_row d sessionId (att_userId a)
                          /\ att_verifiedBy a = Some user
                          /\ att_verifiedAt a = Some now) rows.
Proof.
  intros d sessionId userIds defaultStatus user now.
  assert (Hsame : with_Attendances d (Attendances d ++ []) = d).
  { rewrite app_nil_r. apply with_Attendances_same. }
  apply wp_run with
    (P := fun out => exists rows,
            snd out = with_Attendances d (Attendances d ++ rows)
            /\ Forall (fun a => att_sessionId a = sessionId
                                /\ In (att_userId a) userIds
                                /\ ~ has_row d sessionId (att_userId a)
                                /\ att_verifiedBy a = Some user
                                /\ att_verifiedAt a = Some now) rows).
  unfold AttendanceController.createAttendanceRecords.
  wp_steps; try (exists []; split; [simpl; now rewrite Hsame|constructor]).
  unfold AttendanceModel.bulkCreate. wp_steps.
  eexists. split; [reflexivity|].
  eapply Forall_impl; [|apply new_rows_facts].
  simpl. intros a (A1 & A2 & _ & A4 & A5).
  apply filter_In in A2. destruct A2 as [A2 Hnew]. apply negb_true_iff in Hnew.
  repeat split; auto.
  intros [r (Hr & Hs & Hu)].
  apply (new_user (Attendances d) sessionId userIds (att_userId a) A2 Hnew r Hr).
  unfold pair_of. congruence.
Qed.

Lemma createAttendanceRecords_keeps_unique_pairs_witness :
  unique_pairs (Attendances (snd (run (AttendanceController.createAttendanceRecords
                                         AttendanceController.imports 1 [11; 20; 12]
                                         None 12 1000) Sample.db)))
  /\ map pair_of (Attendances (snd (run (AttendanceController.createAttendanceRecords
                                          AttendanceController.imports 1 [11; 20; 12]
                                          None 12 1000) Sample.db)))
     = [(1, 10); (1, 11); (1, 20); (1, 12)].
Proof.
  split; [|reflexivity].
  apply (createAttendanceRecords_keeps_unique_pairs Sample.db 1 [11; 20; 12] None 12 1000).
  - unfold unique_pairs. simpl. distinct.
  - distinct.
Defined.

Lemma generateAttendanceForBatch_keeps_unique_pairs_witness :
  let d := with_Attendances Sample.db [mkAttendance 1 1 10 late None None None None] in
  unique_pairs (Attendances (snd (run (AttendanceController.generateAttendanceForBatch
                                         AttendanceController.imports false 1 None 12 1000)
                                    d)))
  /\ map pair_of (Attendances (snd (run (AttendanceController.generateAttendanceForBatch
                                          AttendanceController.imports false 1 None
                                          12 1000) d)))
     = [(1, 10); (1, 11)].
Proof.
  intros d. split; [|reflexivity].
  apply (generateAttendanceForBatch_keeps_unique_pairs d false 1 None 12 1000).
  - unfold unique_pairs. simpl. distinct.
  - simpl. distinct.
Defined.

Lemma existing_user_has_row (rows : list Attendance) (sessionId : Z) (ids : list Z) (u : Z) :
  includes (map att_userId
              (filter (AttendanceController.existing_where sessionId ids) rows)) u = true ->
  exists a, In a rows /\ att_sessionId a = sessionId /\ att_userId a = u.
Proof.
  intros H. apply includes_spec in H. apply in_map_iff in H.
  destruct H as [a [Hu Ha]]. apply filter_In in Ha. destruct Ha as [Ha Hw].
  unfold AttendanceController.existing_where in Hw. apply andb_true_iff in Hw.
  destruct Hw as [Hs _]. apply Z.eqb_eq in Hs. exists a. auto.
Qed.

(** What generateAttendanceForBatch leaves behind on a session that has a
    batch, with a valid default status: rows are only appended, and every
    santri user of the batch then has a row for the session. *)
Lemma generateAttendanceForBatch_store (d : DB) (lower : bool) (sessionId : Z)
    (defaultStatus : option string) (user now : Z) (session : Session) :
  SessionModel.findByPk sessionId d = Some session ->
  session_batchId session <> 0 ->
  AttendanceController.valid_status (Some (str_or defaultStatus "absent")) = true ->
  exists rows,
    snd (run (AttendanceController.generateAttendanceForBatch AttendanceController.imports
                lower sessionId defaultStatus user now) d)
    = with_Attendances d (Attendances d ++ rows)
    /\ forall u, In u (targets d sessionId) ->
         exists a, In a (Attendances d ++ rows)
                   /\ att_sessionId a = sessionId /\ att_userId a = user_id u.
Proof.
  intros Hfound Hbatch Hstatus.
  assert (Hsame : with_Attendances d (Attendances d ++ []) = d).
  { rewrite app_nil_r. apply with_Attendances_same. }
  unfold targets. rewrite Hfound.
  set (users := UserModel.findAll
                  (SessionController.santri_of_batch (session_batchId session)) d).
  apply wp_run with
    (P := fun out => exists rows,
            snd out = with_Attendances d (Attendances d ++ rows)
            /\ forall u, In u users ->
                 exists a, In a (Attendances d ++ rows)
                           /\ att_sessionId a = sessionId /\ att_userId a = user_id u).
  unfold AttendanceController.generateAttendanceForBatch.
  wp_steps. rewrite Hfound. wp_steps.
  - apply Z.eqb_eq in H. contradiction.
  - rewrite Hstatus in *. discriminate.
  - fold users. wp_case.
    + (* the batch has no santri user *)
      assert (E : users = []) by (destruct users; [reflexivity|discriminate]).
      unfold AttendanceController.session_batch_name. wp_steps.
      wp_case; wp_steps; exists []; (split; [simpl; now rewrite Hsame|]);
        rewrite E; intros u [].
    + wp_steps.
      * (* every user has a row *)
        exists []. split; [simpl; now rewrite Hsame|].
        intros u Hu. rewrite app_nil_r.
        match goal with
        | H : (Z.of_nat (List.length ?l) =? 0) = true |- _ =>
            assert (E : l = []) by (destruct l; [reflexivity|discriminate])
        end.
        apply (existing_user_has_row (Attendances d) sessionId (map user_id users)).
        destruct (includes _ (user_id u)) eqn:I; [reflexivity|].
        assert (K : In u []).
        { rewrite <- E. apply filter_In. split; [exact Hu|].
          unfold AttendanceModel.findAll. now rewrite I. }
        destruct K.
      * unfold AttendanceModel.bulkCreate. wp_steps.
        unfold AttendanceController.session_batch_name. wp_steps.
        wp_case; wp_steps; (eexists; split; [reflexivity|]);
          intros u Hu;
          match goal with
          | |- context [includes ?ex _] =>
              destruct (includes ex (user_id u)) eqn:I
          end.
        all: try (destruct (existing_user_has_row _ _ _ _ I) as [a [Ha Hr]];
                  exists a; split; [apply in_or_app; now left|exact Hr]).
        all: match goal with
             | |- context [AttendanceModel.assign_ids ?n
                             (AttendanceController.newRecords ?sid ?st ?nt ?us ?nw ?ids)] =>
                 destruct (new_rows_cover n sid st nt us nw ids (user_id u)) as [a [Ha Hr]];
                 [apply in_map; apply filter_In; split;
                  [exact Hu|unfold AttendanceModel.findAll in *; now rewrite I]
                 |exists a; split; [apply in_or_app; now right|exact Hr]]
             end.
Qed.

Lemma generateAttendanceForBatch_rejects_full_cover (d : DB) (lower : bool)
    (sessionId : Z) (defaultStatus : option string) (user now : Z) :
  (forall u, In u (targets d sessionId) -> has_row d sessionId (user_id u)) ->
  is_success (fst (run (AttendanceController.generateAttendanceForBatch
                          AttendanceController.imports lower sessionId
                          defaultStatus user now) d)) = false
  /\ snd (run (AttendanceController.generateAttendanceForBatch
                 AttendanceController.imports lower sessionId
                 defaultStatus user now) d) = d.
Proof.
  intros Hall.
  apply wp_run with (P := fun out => is_success (fst out) = false /\ snd out = d).
  unfold AttendanceController.generateAttendanceForBatch, targets in *.
  wp_steps. wp_case; [|wp_steps; split; reflexivity].
  wp_steps; try (split; reflexivity).
  wp_case.
  - unfold AttendanceController.session_batch_name. wp_steps.
    wp_case; wp_steps; split; reflexivity.
  - wp_steps; try (split; reflexivity).
    exfalso.
    match goal with
    | H : (Z.of_nat (List.length ?l) =? 0) = false |- _ =>
        apply length_zero_test in H; apply H
    end.
    unfold AttendanceModel.findAll.
    apply (nothing_new user_id _ _ (Attendances d) sessionId).
    intros u Hu. split; [now apply in_map|apply (Hall u Hu)].
Qed.

(** X15.  After generateAttendanceForBatch on a session that has a batch,
    with a valid default status, every santri user of the batch has an
    attendance row for the session, whatever the call answered; a second
    call on the same session is then answered with an error and writes
    nothing. *)
Theorem generateAttendanceForBatch_covers_batch_then_rejects :
  forall (d : DB) (lower : bool) (sessionId : Z) (defaultStatus : option string)
         (user now : Z) (session : Session),
    SessionModel.findByPk sessionId d = Some session ->
    session_batchId session <> 0 ->
    AttendanceController.valid_status (Some (str_or defaultStatus "absent")) = true ->
    let d' := snd (run (AttendanceController.generateAttendanceForBatch
                          AttendanceController.imports lower sessionId
                          defaultStatus user now) d) in
    (forall u, In u (targets d sessionId) -> has_row d' sessionId (user_id u))
    /\ (forall (lower2 : bool) (defaultStatus2 : option string) (user2 now2 : Z),
          let again := run (AttendanceController.generateAttendanceForBatch
                              AttendanceController.imports lower2 sessionId
                              defaultStatus2 user2 now2) d' in
          is_success (fst again) = false /\ snd again = d').
Proof.
  intros d lower sessionId defaultStatus user now session Hfound Hbatch Hstatus d'.
  destruct (generateAttendanceForBatch_store d lower sessionId defaultStatus user now
              session Hfound Hbatch Hstatus) as [rows [Hstore Hcover]].
  fold d' in Hstore.
  assert (Hrows : forall u, In u (targets d sessionId) -> has_row d' sessionId (user_id u)).
  { intros u Hu. unfold has_row. rewrite Hstore. simpl. exact (Hcover u Hu). }
  split; [exact Hrows|].
  intros lower2 defaultStatus2 user2 now2 again.
  apply generateAttendanceForBatch_rejects_full_cover.
  intros u Hu. apply Hrows. rewrite Hstore in Hu. exact Hu.
Qed.

Lemma generateAttendanceForBatch_covers_batch_then_rejects_witness :
  let d := with_Attendances Sample.db [mkAttendance 1 1 10 late None None None None] in
  let d' := snd (run (AttendanceController.generateAttendanceForBatch
                        AttendanceController.imports true 1 None 12 1000) d) in
  Attendances d' = [ mkAttendance 1 1 10 late None None None None;
                     mkAttendance 2 1 11 absent None None (Some 12) (Some 1000) ]
  /\ has_row d' 1 10 /\ has_row d' 1 11
  /\ fst (run (AttendanceController.generateAttendanceForBatch
                 AttendanceController.imports true 1 None 12 2000) d')
     = Json 400 false (Message AllInBatchHaveRecords).
Proof.
  intros d d'.
  destruct (generateAttendanceForBatch_covers_batch_then_rejects d true 1 None 12 1000
              (mkSession 1 "2025-01-10" "05:00" "06:00" 1 1 1 scheduled)
              eq_refl ltac:(discriminate) eq_refl) as [H1 _].
  split; [reflexivity|]. split; [|split; [|reflexivity]].
  - apply (H1 (mkUser 10 "Ali" santri (Some 1) (Some 1))). simpl. auto.
  - apply (H1 (mkUser 11 "Budi" santri (Some 1) None)). simpl. auto.
Defined.

(** ** Session types *)

(** X16.  deleteSessionType on an existing session type: while a session
    refers to the type the call is answered 400 and nothing is written;
    when no session refers to it the type is deleted, the other types are
    kept and the call is answered 200. *)
Theorem deleteSessionType_is_guarded_by_sessions :
  forall (d : DB) (id : Z) (sessionType : SessionType),
    SessionTypeModel.findByPk (Some id) d = Some sessionType ->
    ((exists s, In s (Sessions d) /\ session_sessionTypeId s = id) ->
       exists n, 0 < n /\
         finish (SessionTypes.deleteSessionType SessionTypes.imports id) d
         = (Answer 400 false (Notice (CannotDeleteSessionType n)), d))
    /\
    ((forall s, In s (Sessions d) -> session_sessionTypeId s <> id) ->
       exists d',
         finish (SessionTypes.deleteSessionType SessionTypes.imports id) d
         = (Answer 200 true (Known EmptyData), d')
         /\ SessionTypeModel.findByPk (Some id) d' = None
         /\ SessionTypes d' = filter (fun t => negb (sessionType_id t =? id)) (SessionTypes d)
         /\ Sessions d' = Sessions d /\ Attendances d' = Attendances d).
Proof.
  intros d id sessionType Hfound.
  assert (Hid : sessionType_id sessionType = id).
  { simpl in Hfound. now destruct (find_key _ _ _ _ Hfound). }
  split.
  - intros [s [Hs Ht]].
    exists (SessionTypes.session_count (fun s => session_sessionTypeId s =? id) d).
    assert (P : (0 <? SessionTypes.session_count
                        (fun s => session_sessionTypeId s =? id) d) = true).
    { apply count_positive. exists s. split; [exact Hs|now apply Z.eqb_eq]. }
    split; [now apply Z.ltb_lt|].
    apply wp_finish with (P := fun out => out = (_, d)).
    unfold SessionTypes.deleteSessionType. wp_steps. rewrite Hfound. wp_steps.
    rewrite P. wp_steps. reflexivity.
  - intros Hnone.
    assert (P : (0 <? SessionTypes.session_count
                        (fun s => session_sessionTypeId s =? id) d) = false).
    { apply count_zero. intros s Hs. apply Z.eqb_neq. now apply Hnone. }
    eexists. split.
    + apply wp_finish with (P := fun out => out = (_, _)).
      unfold SessionTypes.deleteSessionType. wp_steps. rewrite Hfound. wp_steps.
      rewrite P. unfold SessionTypes.destroy. wp_steps. reflexivity.
    + rewrite Hid. simpl. split; [apply find_after_delete|]. auto.
Qed.

Lemma deleteSessionType_is_guarded_by_sessions_witness :
  (exists n, 0 < n /\
     finish (SessionTypes.deleteSessionType SessionTypes.imports 1) Sample.db
     = (Answer 400 false (Notice (CannotDeleteSessionType n)), Sample.db))
  /\ (exists d',
        finish (SessionTypes.deleteSessionType SessionTypes.imports 1)
          (with_Sessions Sample.db [])
        = (Answer 200 true (Known EmptyData), d')
        /\ SessionTypes d' = []).
Proof.
  split.
  - apply (proj1 (deleteSessionType_is_guarded_by_sessions Sample.db 1
                    (mkSessionType 1 "Subuh") eq_refl)).
    exists (mkSession 1 "2025-01-10" "05:00" "06:00" 1 1 1 scheduled).
    split; [simpl; auto|reflexivity].
  - destruct (proj2 (deleteSessionType_is_guarded_by_sessions (with_Sessions Sample.db []) 1
                       (mkSessionType 1 "Subuh") eq_refl)) as [d' (H1 & _ & H3 & _)].
    + intros s [].
    + exists d'. split; [exact H1|]. rewrite H3. reflexivity.
Defined.

Lemma ascii_compare_nat (a b : ascii) :
  Ascii.compare a b = Nat.compare (nat_of_ascii a) (nat_of_ascii b).
Proof. unfold Ascii.compare, nat_of_ascii. apply Nnat.N2Nat.inj_compare. Qed.

(** The texts [timeRegex] accepts: two digits from 00 to 23, a colon, two
    digits from 00 to 59. *)
Lemma timeRegex_shape (s : string) :
  SessionTypes.timeRegex_test s = true ->
  exists h1 h2 m1 m2,
    s = String h1 (String h2 (String ":" (String m1 (String m2 ""))))
    /\ ((48 <= nat_of_ascii h1 <= 49 /\ 48 <= nat_of_ascii h2 <= 57)
        \/ (nat_of_ascii h1 = 50 /\ 48 <= nat_of_ascii h2 <= 51))%nat
    /\ (48 <= nat_of_ascii m1 <= 53)%nat /\ (48 <= nat_of_ascii m2 <= 57)%nat.
Proof.
  unfold SessionTypes.timeRegex_test.
  destruct s as [|h1 [|h2 [|c [|m1 [|m2 [|x r]]]]]]; simpl; try discriminate.
  intros H. exists h1, h2, m1, m2.
  apply andb_true_iff in H. destruct H as [H Hm2].
  apply andb_true_iff in H. destruct H as [H Hm1].
  apply andb_true_iff in H. destruct H as [Hh Hc].
  apply Ascii.eqb_eq in Hc. subst c.
  unfold SessionTypes.char_in, is_digit in *.
  apply andb_true_iff in Hm1. destruct Hm1 as [M1 M1'].
  apply andb_true_iff in Hm2. destruct Hm2 as [M2 M2'].
  apply Nat.leb_le in M1, M1', M2, M2'.
  split; [reflexivity|]. split; [|split; lia].
  apply orb_true_iff in Hh. destruct Hh as [Hh|Hh];
    apply andb_true_iff in Hh; destruct Hh as [A B].
  - left. apply andb_true_iff in A, B. destruct A as [A1 A2], B as [B1 B2].
    apply Nat.leb_le in A1, A2, B1, B2. lia.
  - right. apply Ascii.eqb_eq in A. subst h1.
    apply andb_true_iff in B. destruct B as [B1 B2].
    apply Nat.leb_le in B1, B2. split; [reflexivity|lia].
Qed.

(** X17.  The checks of createSessionType let a request through exactly
    when startTime and endTime both have the form HH:MM (00:00 to 23:59)
    and startTime is earlier in the day than endTime: on such texts the
    comparison of the two strings is the comparison of the two times. *)
Theorem createSessionType_checks_accept_ordered_times :
  forall (startTime endTime : string),
    SessionTypes.createSessionType_checks (Some startTime) (Some endTime) = None
    <-> SessionTypes.timeRegex_test startTime = true
        /\ SessionTypes.timeRegex_test endTime = true
        /\ (minutes_of startTime < minutes_of endTime)%nat.
Proof.
  intros s e. unfold SessionTypes.createSessionType_checks. simpl.
  destruct (SessionTypes.timeRegex_test s) eqn:Hs;
    [|simpl; split; [discriminate|intros [H _]; discriminate H]].
  destruct (SessionTypes.timeRegex_test e) eqn:He;
    [|simpl; split; [discriminate|intros [_ [H _]]; discriminate H]].
  simpl.
  destruct (timeRegex_shape s Hs) as (a1 & a2 & a3 & a4 & -> & Ha & Ha3 & Ha4).
  destruct (timeRegex_shape e He) as (b1 & b2 & b3 & b4 & -> & Hb & Hb3 & Hb4).
  unfold String.leb, minutes_of, digit_val. simpl.
  rewrite !ascii_compare_nat.
  destruct (Nat.compare_spec (nat_of_ascii b1) (nat_of_ascii a1));
    destruct (Nat.compare_spec (nat_of_ascii b2) (nat_of_ascii a2));
    destruct (Nat.compare_spec (nat_of_ascii b3) (nat_of_ascii a3));
    destruct (Nat.compare_spec (nat_of_ascii b4) (nat_of_ascii a4));
    split; try discriminate; try (intros _; repeat split; lia);
    intros (_ & _ & K); exfalso; lia.
Qed.



